(** * Sierra RTK multitasking demo (src/src/main.c): a shallow embedding

    The program runs five tasks on the Sierra real-time kernel: an idle
    task, a one-second timer, an accelerometer sampling task, a filter
    task that averages the last ten samples, and a task that plots the
    z axis.  The three data tasks communicate through the global
    [global_acc_data], guarded by semaphore [SEM_SHARED_DATA].

    Every task is an initialisation prologue followed by [while (1)].
    One iteration of each loop is embedded as a total function from the
    task's local variables (those that survive an iteration) and the
    values the environment supplies during the iteration (the integer
    returned by [wait_for_next_period], the accelerometer reading, the
    content of the shared cell) to the new local variables and the list
    of calls made, in program order.  Calls into the kernel, the VGA
    driver and the accelerometer driver are recorded as events; their
    implementations are not part of main.c.  The return of
    [wait_for_next_period] is what starts an iteration: it is not an
    event, its result is the iteration's input [deadline]. *)

From stdpp Require Import base tactics option list numbers strings.
From Stdlib Require Import ZArith Lia Ascii.

Local Open Scope Z_scope.

(** ** Machine integers

    [int16_t] is 16 bits by definition; [int] and [unsigned int] are 32
    bits on the Nios II target of the DE10-Lite board.  Values are
    mathematical integers and every conversion writes its wrap-around
    out. *)

Definition wrap_signed (bits v : Z) : Z :=
  (v + 2 ^ (bits - 1)) mod 2 ^ bits - 2 ^ (bits - 1).

Definition wrap_unsigned (bits v : Z) : Z := v mod 2 ^ bits.

Definition to_int (v : Z) : Z := wrap_signed 32 v.
Definition to_uint (v : Z) : Z := wrap_unsigned 32 v.

Definition INT16_MIN : Z := -32768.
Definition INT16_MAX : Z := 32767.
Definition INT_MIN : Z := -2147483648.
Definition INT_MAX : Z := 2147483647.

Definition in_int16 (v : Z) : Prop := INT16_MIN <= v <= INT16_MAX.
Definition in_int (v : Z) : Prop := INT_MIN <= v <= INT_MAX.

(** C's [/] and [%] on [int] truncate toward zero: [Z.quot] and [Z.rem]. *)
Definition int_add (a b : Z) : Z := to_int (a + b).
Definition int_mul (a b : Z) : Z := to_int (a * b).
Definition int_div (a b : Z) : Z := to_int (Z.quot a b).
Definition int_mod (a b : Z) : Z := to_int (Z.rem a b).

(** ** Constants of main.c *)

Definition STACK_SIZE : Z := 800.
Definition SEM_SHARED_DATA : Z := 1.

Inductive task_id : Set :=
| IDLE | TASK_TIMER | TASK_ACC | TASK_ACC_FILTER | TASK_PLOT.

(** The numeric identifiers given by the [#define]s. *)
Definition task_number (t : task_id) : Z :=
  match t with
  | IDLE => 0
  | TASK_ACC => 2
  | TASK_ACC_FILTER => 3
  | TASK_TIMER => 1
  | TASK_PLOT => 4
  end.

Global Instance task_id_eq_dec : EqDecision task_id.
Proof. solve_decision. Defined.

(** ** Accelerometer samples *)

Record position_t : Set := mk_position { x : Z; y : Z; z : Z }.

Global Instance position_eq_dec : EqDecision position_t.
Proof. solve_decision. Defined.

(** A sample whose three fields are representable in [int16_t]. *)
Definition sample_ok (p : position_t) : Prop :=
  in_int16 (x p) /\ in_int16 (y p) /\ in_int16 (z p).

Definition zero_position : position_t := mk_position 0 0 0.

Global Instance position_inhabited : Inhabited position_t :=
  populate zero_position.

(** ** Events: the calls a task makes

    One constructor per function called, with the arguments passed (for
    [accelerometer_receive], the sample it writes through its three
    pointers).  [LoadGlobal] and [StoreGlobal] are the two assignments
    that read and write [global_acc_data], with the sample copied.
    [ClearScreenRange] is a call to main.c's own [clear_screen_range],
    whose pixel writes are given by the function of that name below. *)

Inductive colour : Set :=
| Col_White | Col_Black | Col_Cyan | Col_Green | Col_Magenta | Col_Red.

Global Instance colour_eq_dec : EqDecision colour.
Proof. solve_decision. Defined.

Inductive event : Set :=
| Printf (text : string)
| InitPeriodTime (ticks : Z)
| AccelerometerReceive (sample : position_t)
| SemTake (sem : Z)
| SemRelease (sem : Z)
| LoadGlobal (sample : position_t)    (* ... = global_acc_data *)
| StoreGlobal (sample : position_t)   (* global_acc_data = ... *)
| TtyPrint (px py : Z) (text : string) (fg bg : colour)
| IntPrint (px py value width : Z) (fg bg : colour)
| DrawHline (px py len : Z) (c : colour)
| DrawFilledCircle (px py radius : Z) (c : colour)
| ClearScreenRange (start_x start_y end_x end_y : Z)
| WritePixel (px py : Z) (c : colour).

Global Instance event_eq_dec : EqDecision event.
Proof. solve_decision. Defined.

Definition newline : string := String "010"%char EmptyString.

(** [if (deadline.periodic_start_integer & 0x1) printf(...)], the head of
    every periodic loop body. *)
Definition deadline_missed (deadline : Z) : bool :=
  negb (Z.land deadline 1 =? 0).

Definition report_deadline (deadline : Z) (text : string) : list event :=
  if deadline_missed deadline then [Printf text] else [].

(** ** clear_screen_range

    Two nested [for] loops with inclusive bounds, columns outermost,
    writing one black pixel per position.  The arguments are [size_t];
    the callers pass small constants, so the counters do not wrap. *)

Definition clear_screen_range (start_x start_y end_x end_y : Z) : list event :=
  flat_map
    (fun col =>
       map (fun row => WritePixel col row Col_Black)
           (map (fun j => start_y + Z.of_nat j)
                (seq 0 (Z.to_nat (end_y + 1 - start_y)))))
    (map (fun i => start_x + Z.of_nat i)
         (seq 0 (Z.to_nat (end_x + 1 - start_x)))).

(** ** Idle task *)

Module idle_code.

Definition prologue : list event :=
  [Printf ("Idle task started" +:+ newline)].

(** The empty [for] loop counts [i] up to 500000 and has no effect
    that outlives it; then a dot is printed. *)
Definition loop_body : list event := [Printf ("." +:+ newline)].

End idle_code.

(** ** Timer task *)

Module timer_task_code.

Record locals : Set := mk_locals { time : Z }.

Definition task_name : string := "Timer".

Definition prologue : list event := [InitPeriodTime 50].

Definition init : locals := {| time := 0 |}.

Definition miss_text : string := "Deadline miss: TIMER task" +:+ newline.

Definition loop_body (deadline : Z) (s : locals) : locals * list event :=
  let time' := to_uint (time s + 1) in
  ({| time := time' |},
   report_deadline deadline miss_text
     ++ [TtyPrint 70 140 task_name Col_White Col_Black;
         IntPrint 70 165 time' 5 Col_White Col_Black]).

End timer_task_code.

(** ** Accelerometer sampling task

    [local_acc_data] is overwritten by [accelerometer_receive] at the
    start of every iteration, so no local variable carries over; the
    reading is the environment's [sensor].  The function returns the new
    content of [global_acc_data]. *)

Module task_acc_code.

Definition prologue : list event := [InitPeriodTime 50].

Definition miss_text : string := "Deadline miss: ACC task" +:+ newline.

Definition loop_body (deadline : Z) (sensor : position_t)
  : position_t * list event :=
  let local_acc_data := sensor in
  (local_acc_data,
   report_deadline deadline miss_text
     ++ [AccelerometerReceive local_acc_data;
         SemTake SEM_SHARED_DATA;
         StoreGlobal local_acc_data;
         SemRelease SEM_SHARED_DATA;
         TtyPrint 60 25 "task_Acc" Col_White Col_Black;
         TtyPrint 60 40 "X" Col_White Col_Black;
         IntPrint 70 40 (x local_acc_data) 3 Col_White Col_Black;
         TtyPrint 60 50 "Y" Col_White Col_Black;
         IntPrint 70 50 (y local_acc_data) 3 Col_White Col_Black;
         TtyPrint 60 60 "Z" Col_White Col_Black;
         IntPrint 70 60 (z local_acc_data) 3 Col_White Col_Black]).

End task_acc_code.

(** ** Accelerometer filter task

    [acc_array] is an uninitialised automatic array of ten samples: its
    initial content [garbage] is arbitrary.  [counter] and the three
    averages are [int], [sampled_ten_times] is a [bool].  The store
    [acc_array[counter] = ...] is a list update at [counter]; the index
    stays within 0..9 (lemma [filter_run_cursor] below), so the
    out-of-range behaviour of the list update is never exercised. *)

Module task_acc_filter_code.

Record locals : Set := mk_locals {
  acc_array : list position_t;
  counter : Z;
  sampled_ten_times : bool;
  avg_x : Z;
  avg_y : Z;
  avg_z : Z
}.

Definition prologue : list event := [InitPeriodTime 50].

Definition init (garbage : list position_t) : locals :=
  {| acc_array := garbage; counter := 0; sampled_ten_times := false;
     avg_x := 0; avg_y := 0; avg_z := 0 |}.

Definition miss_text : string :=
  "Deadline miss: ACC FILTER task" +:+ newline.

(** One iteration of [for (size_t i = 0; i < 10; i++)]: the three
    [+=] on [int] accumulators. *)
Definition accumulate (arr : list position_t) (sums : Z * Z * Z) (i : nat)
  : Z * Z * Z :=
  let '(sx, sy, sz) := sums in
  (int_add sx (x (arr !!! i)),
   int_add sy (y (arr !!! i)),
   int_add sz (z (arr !!! i))).

(** The accumulators after the first [n] iterations, starting from
    [avg_x = avg_y = avg_z = 0]. *)
Definition sum_loop (arr : list position_t) (n : nat) : Z * Z * Z :=
  fold_left (accumulate arr) (seq 0 n) (0, 0, 0).

Definition loop_body (deadline : Z) (global_acc_data : position_t)
    (s : locals) : locals * list event :=
  let head :=
    report_deadline deadline miss_text
      ++ [SemTake SEM_SHARED_DATA;
          LoadGlobal global_acc_data;
          SemRelease SEM_SHARED_DATA;
          TtyPrint 200 35 "task_acc_filter" Col_White Col_Black] in
  let arr := <[Z.to_nat (counter s) := global_acc_data]> (acc_array s) in
  let counter' := int_mod (int_add (counter s) 1) 10 in
  if sampled_ten_times s then
    let '(sx, sy, sz) := sum_loop arr 10 in
    let ax := int_div sx 10 in
    let ay := int_div sy 10 in
    let az := int_div sz 10 in
    ({| acc_array := arr; counter := counter';
        sampled_ten_times := sampled_ten_times s;
        avg_x := ax; avg_y := ay; avg_z := az |},
     head ++ [TtyPrint 220 50 "X" Col_White Col_Black;
              IntPrint 230 50 ax 3 Col_White Col_Black;
              TtyPrint 220 60 "Y" Col_White Col_Black;
              IntPrint 230 60 ay 3 Col_White Col_Black;
              TtyPrint 220 70 "Z" Col_White Col_Black;
              IntPrint 230 70 az 3 Col_White Col_Black])
  else if counter s =? 9 then
    ({| acc_array := arr; counter := counter'; sampled_ten_times := true;
        avg_x := avg_x s; avg_y := avg_y s; avg_z := avg_z s |},
     head ++ [ClearScreenRange 170 0 319 110])
  else
    ({| acc_array := arr; counter := counter';
        sampled_ten_times := sampled_ten_times s;
        avg_x := avg_x s; avg_y := avg_y s; avg_z := avg_z s |},
     head ++ [TtyPrint 200 65 "sampling..." Col_White Col_Black]).

End task_acc_filter_code.

(** ** Plotting task

    [local_pos] is overwritten from the shared cell in every iteration;
    only [counter] carries over. *)

Module task_plot_code.

Record locals : Set := mk_locals { counter : Z }.

Definition prologue : list event := [InitPeriodTime 50].

Definition init : locals := {| counter := 0 |}.

Definition miss_text : string := "Deadline miss: PLOT task" +:+ newline.

(** The two coordinate arguments of [draw_filled_circle]. *)
Definition point_x (counter : Z) : Z := int_add 205 (int_mul 5 counter).

Definition point_y (local_pos : position_t) : Z :=
  int_add 180 (int_mul (int_div (z local_pos) 8) (-1)).

Definition loop_body (deadline : Z) (global_acc_data : position_t)
    (s : locals) : locals * list event :=
  let local_pos := global_acc_data in
  ({| counter := int_mod (int_add (counter s) 1) 5 |},
   report_deadline deadline miss_text
     ++ (if counter s =? 0 then [ClearScreenRange 170 125 319 239] else [])
     ++ [TtyPrint 200 130 "task_acc_filter" Col_White Col_Black;
         SemTake SEM_SHARED_DATA;
         LoadGlobal local_pos;
         SemRelease SEM_SHARED_DATA;
         TtyPrint 190 180 "0" Col_White Col_Black;
         DrawHline 200 180 60 Col_Cyan;
         DrawFilledCircle (point_x (counter s)) (point_y local_pos) 1
           Col_Green]).

End task_plot_code.

(** ** main: the task table

    The part of [main] that configures the kernel: the time base and
    the five [task_create] calls, in order.  The welcome screen, the
    button wait and the accelerometer bring-up precede it and create no
    task. *)

Inductive task_state : Set := READY_TASK_STATE.

Record task_create_call : Set := mk_task_create {
  tc_id : task_id;
  tc_priority : Z;
  tc_state : task_state;
  tc_entry : task_id;          (* the task whose code is the entry point *)
  tc_stack_size : Z
}.

Definition main_task_creates : list task_create_call :=
  [ mk_task_create IDLE 0 READY_TASK_STATE IDLE STACK_SIZE;
    mk_task_create TASK_TIMER 1 READY_TASK_STATE TASK_TIMER STACK_SIZE;
    mk_task_create TASK_ACC 1 READY_TASK_STATE TASK_ACC STACK_SIZE;
    mk_task_create TASK_ACC_FILTER 1 READY_TASK_STATE TASK_ACC_FILTER
      STACK_SIZE;
    mk_task_create TASK_PLOT 1 READY_TASK_STATE TASK_PLOT STACK_SIZE ].

(** The argument of [set_timebase(1000)].  What tick length the kernel
    derives from it is not in main.c. *)
Definition set_timebase_argument : Z := 1000.

(** The events a task's entry point performs before entering its loop. *)
Definition task_prologue (t : task_id) : list event :=
  match t with
  | IDLE => idle_code.prologue
  | TASK_TIMER => timer_task_code.prologue
  | TASK_ACC => task_acc_code.prologue
  | TASK_ACC_FILTER => task_acc_filter_code.prologue
  | TASK_PLOT => task_plot_code.prologue
  end.

(** The period a task configures for itself: the argument of its
    [init_period_time] call, if it makes one. *)
Definition configured_period (t : task_id) : option Z :=
  head (omap (fun e => match e with InitPeriodTime n => Some n | _ => None end)
             (task_prologue t)).

Definition periodic_tasks : list task_id :=
  [TASK_TIMER; TASK_ACC; TASK_ACC_FILTER; TASK_PLOT].

(** ** Running a loop

    [while (1) body]: the body is applied once per input the
    environment supplies, threading the local variables; the result is
    the final local variables and the events of each iteration. *)

Fixpoint run_loop {St In : Type} (body : In -> St -> St * list event)
    (inputs : list In) (s : St) : St * list (list event) :=
  match inputs with
  | [] => (s, [])
  | i :: rest =>
      let '(s1, ev) := body i s in
      let '(s2, evs) := run_loop body rest s1 in
      (s2, ev :: evs)
  end.

(** The filter task over a list of (deadline value, content of the
    shared cell at the load) pairs. *)
Definition filter_run (garbage : list position_t)
    (inputs : list (Z * position_t))
  : task_acc_filter_code.locals * list (list event) :=
  run_loop (fun i => task_acc_filter_code.loop_body i.1 i.2) inputs
           (task_acc_filter_code.init garbage).

Definition plot_run (inputs : list (Z * position_t))
  : task_plot_code.locals * list (list event) :=
  run_loop (fun i => task_plot_code.loop_body i.1 i.2) inputs
           task_plot_code.init.

(** ** The whole system

    The kernel decides which task runs next.  A [release] names the task
    whose loop body runs and carries what the environment supplies to
    it.  A body touches the shared cell in a single statement between
    [sem_take] and [sem_release] and is otherwise local to its task, so
    running the released bodies one after the other yields, for every
    task, the events and the values it would see under any interleaving
    that respects the semaphore. *)

Record world : Set := mk_world {
  global_acc_data : position_t;
  timer_locals : timer_task_code.locals;
  filter_locals : task_acc_filter_code.locals;
  plot_locals : task_plot_code.locals
}.

Record release : Set := mk_release {
  rel_task : task_id;
  rel_deadline : Z;        (* deadline.periodic_start_integer *)
  rel_sensor : position_t  (* what accelerometer_receive delivers *)
}.

(** [global_acc_data] has static storage and starts zeroed. *)
Definition boot (garbage : list position_t) : world :=
  {| global_acc_data := zero_position;
     timer_locals := timer_task_code.init;
     filter_locals := task_acc_filter_code.init garbage;
     plot_locals := task_plot_code.init |}.

Definition period (r : release) (w : world) : world * list event :=
  match rel_task r with
  | IDLE => (w, idle_code.loop_body)
  | TASK_TIMER =>
      let '(s, ev) := timer_task_code.loop_body (rel_deadline r)
                        (timer_locals w) in
      ({| global_acc_data := global_acc_data w; timer_locals := s;
          filter_locals := filter_locals w; plot_locals := plot_locals w |},
       ev)
  | TASK_ACC =>
      let '(g, ev) := task_acc_code.loop_body (rel_deadline r)
                        (rel_sensor r) in
      ({| global_acc_data := g; timer_locals := timer_locals w;
          filter_locals := filter_locals w; plot_locals := plot_locals w |},
       ev)
  | TASK_ACC_FILTER =>
      let '(s, ev) := task_acc_filter_code.loop_body (rel_deadline r)
                        (global_acc_data w) (filter_locals w) in
      ({| global_acc_data := global_acc_data w;
          timer_locals := timer_locals w;
          filter_locals := s; plot_locals := plot_locals w |},
       ev)
  | TASK_PLOT =>
      let '(s, ev) := task_plot_code.loop_body (rel_deadline r)
                        (global_acc_data w) (plot_locals w) in
      ({| global_acc_data := global_acc_data w;
          timer_locals := timer_locals w;
          filter_locals := filter_locals w; plot_locals := s |},
       ev)
  end.

Definition run (garbage : list position_t) (schedule : list release)
  : world * list (list event) :=
  run_loop period schedule (boot garbage).

(** The events of the iterations of one task, in order. *)
Definition events_of (t : task_id) (schedule : list release)
    (log : list (list event)) : list (list event) :=
  omap (fun '(r, ev) => if decide (rel_task r = t) then Some ev else None)
       (zip schedule log).

(** ** Observations on events *)

(** The values shown by [int_print] at a screen position. *)
Definition int_printed_at (px py : Z) (ev : list event) : list Z :=
  omap (fun e => match e with
                 | IntPrint qx qy v _ _ _ =>
                     if decide (qx = px /\ qy = py) then Some v else None
                 | _ => None
                 end) ev.

(** The filtered output of one iteration of the filter task: the three
    values printed next to "X", "Y" and "Z" in the filter's panel. *)
Definition displayed_average (ev : list event) : option (Z * Z * Z) :=
  match int_printed_at 230 50 ev, int_printed_at 230 60 ev,
        int_printed_at 230 70 ev with
  | [ax], [ay], [az] => Some (ax, ay, az)
  | _, _, _ => None
  end.

Definition is_int_print (e : event) : bool :=
  match e with IntPrint _ _ _ _ _ _ => true | _ => false end.

(** The first average shown in a sequence of iterations. *)
Definition first_average (log : list (list event)) : option (Z * Z * Z) :=
  head (omap displayed_average log).

(** The values a task copied out of the shared cell, in order. *)
Definition loads (ev : list event) : list position_t :=
  omap (fun e => match e with LoadGlobal p => Some p | _ => None end) ev.

(** Number of occurrences of an event. *)
Definition occurrences (e : event) (ev : list event) : nat :=
  length (filter (fun e' => e' = e) ev).

(** Sums and truncated mean of a list of samples, over the integers. *)
Definition sum_of (field : position_t -> Z) (l : list position_t) : Z :=
  foldr (fun p acc => field p + acc) 0 l.
Definition sum_x : list position_t -> Z := sum_of x.
Definition sum_y : list position_t -> Z := sum_of y.
Definition sum_z : list position_t -> Z := sum_of z.

Definition mean10 (l : list position_t) : Z * Z * Z :=
  (Z.quot (sum_x l) 10, Z.quot (sum_y l) 10, Z.quot (sum_z l) 10).

(** The last [n] elements of a list. *)
Definition last_n {A : Type} (n : nat) (l : list A) : list A :=
  drop (length l - n) l.

(** ** The lock discipline, as a checker over a task's events

    [held] tells whether the task holds the semaphore and [copied]
    whether it has already made its copy in the current critical
    section.  Inside a critical section exactly one access to the cell
    is allowed and nothing else; outside, any call except an access. *)
Fixpoint lock_discipline (held copied : bool) (ev : list event) : bool :=
  match ev with
  | [] => negb held
  | SemTake n :: rest =>
      (n =? SEM_SHARED_DATA) && negb held && lock_discipline true false rest
  | SemRelease n :: rest =>
      (n =? SEM_SHARED_DATA) && held && copied
        && lock_discipline false false rest
  | LoadGlobal _ :: rest | StoreGlobal _ :: rest =>
      held && negb copied && lock_discipline true true rest
  | _ :: rest => negb held && lock_discipline false false rest
  end.

(** ** Definitions used by the statements *)

(** What every iteration of the filter task does before it branches on
    [sampled_ten_times]. *)
Definition filter_head (d : Z) (g : position_t) : list event :=
  report_deadline d task_acc_filter_code.miss_text
    ++ [SemTake SEM_SHARED_DATA; LoadGlobal g; SemRelease SEM_SHARED_DATA;
        TtyPrint 200 35 "task_acc_filter" Col_White Col_Black].

(** The ring buffer after the values [loaded] have been written, in
    that order, into an array that started as [garbage].  The window is
    the sequence of the last ten values written, oldest first, where
    the initial content counts as written before the first load.  The
    array is the window rotated so that the oldest value sits at the
    cursor: [newer] are the slots before the cursor, [older] those from
    the cursor on. *)
Definition filter_inv (garbage loaded : list position_t)
    (s : task_acc_filter_code.locals) : Prop :=
  let n := length loaded in
  task_acc_filter_code.counter s = Z.of_nat (n mod 10)
  /\ task_acc_filter_code.sampled_ten_times s = bool_decide (10 <= n)%nat
  /\ exists newer older : list position_t,
       task_acc_filter_code.acc_array s = newer ++ older
       /\ last_n 10 (garbage ++ loaded) = older ++ newer
       /\ length newer = (n mod 10)%nat
       /\ length (newer ++ older) = 10%nat.

(** Every accelerometer reading delivered in a schedule is 16-bit, as
    the [int16_t] fields that receive it require.  Only releases of the
    sampling task read the sensor. *)
Definition sensors_ok (schedule : list release) : Prop :=
  Forall (fun q => rel_task q = TASK_ACC -> sample_ok (rel_sensor q))
         schedule.

(** What a reader task is handed in a schedule: for each of its
    releases the deadline value and the content of the shared cell at
    that moment, the cell being overwritten by every release of the
    sampling task. *)
Fixpoint reader_inputs (t : task_id) (schedule : list release)
    (cell : position_t) : list (Z * position_t) :=
  match schedule with
  | [] => []
  | r :: rest =>
      (if decide (rel_task r = t) then [(rel_deadline r, cell)] else [])
        ++ reader_inputs t rest
             (if decide (rel_task r = TASK_ACC) then rel_sensor r else cell)
  end.

(** The values written into the shared cell, in order, and the last of
    them (the zeroed initial content if there is none). *)
Definition stores (ev : list event) : list position_t :=
  omap (fun e => match e with StoreGlobal p => Some p | _ => None end) ev.

Definition latest_store (ev : list event) : position_t :=
  default zero_position (last (stores ev)).

(** The scenario of the specification: the sampling task stores
    (1,2,3), (4,5,6), ... and the filter task loads after each store. *)
Definition scenario_sample (k : nat) : position_t :=
  mk_position (1 + 3 * Z.of_nat k) (2 + 3 * Z.of_nat k) (3 + 3 * Z.of_nat k).

(** [n] periods in which the sampling task runs and then the filter
    task; [deadline j] is the wait result of the [j]-th release. *)
Definition store_then_load (deadline : nat -> Z) (sample : nat -> position_t)
    (n : nat) : list release :=
  flat_map
    (fun k => [mk_release TASK_ACC (deadline (2 * k)%nat) (sample k);
               mk_release TASK_ACC_FILTER (deadline (2 * k + 1)%nat)
                 zero_position])
    (seq 0 n).

Definition scenario_garbage : list position_t := replicate 10 zero_position.

Definition scenario_schedule (n : nat) : list release :=
  store_then_load (fun _ => 0) scenario_sample n.

Definition filter_averages (s : task_acc_filter_code.locals) : Z * Z * Z :=
  (task_acc_filter_code.avg_x s, task_acc_filter_code.avg_y s,
   task_acc_filter_code.avg_z s).

Global Instance sample_ok_dec (p : position_t) : Decision (sample_ok p).
Proof. unfold sample_ok, in_int16. apply _. Defined.

(** The schedule up to and including the sampling task's eleventh store
    (31,32,33), and the filter task's eleventh release. *)
Definition scenario_before_eleventh_load : list release :=
  scenario_schedule 10 ++ [mk_release TASK_ACC 0 (scenario_sample 10)].

Definition filter_release (deadline : Z) : release :=
  mk_release TASK_ACC_FILTER deadline zero_position.

(** Eleven periods of the scenario, then a period in which the filter
    task ran before the sampling task (the load of the eleventh period
    above, the store of sample 11 here) followed by one in which the
    sampling task runs first: two stores lie between two loads. *)
Definition scenario_two_stores_between_loads : list release :=
  scenario_schedule 11
    ++ [mk_release TASK_ACC 0 (scenario_sample 11);
        mk_release TASK_ACC 0 (scenario_sample 12);
        filter_release 0].

(** The inputs the filter task receives in the scenario. *)
Definition scenario_inputs (deadline : nat -> Z) : list (Z * position_t) :=
  map (fun k => (deadline (2 * k + 1)%nat, scenario_sample k)) (seq 0 10).

(** The [draw_filled_circle] calls among some events, as
    (x, y, radius, colour). *)
Definition filled_circles (ev : list event) : list (Z * Z * Z * colour) :=
  omap (fun e => match e with
                 | DrawFilledCircle px py r c => Some (px, py, r, c)
                 | _ => None
                 end) ev.

(** Six periods of the plotting task, every one reported late. *)
Definition plot_scenario_inputs : list (Z * position_t) :=
  map (fun k => (1, scenario_sample k)) (seq 0 6).

Definition extreme_array : list position_t :=
  replicate 10 (mk_position INT16_MIN INT16_MAX 0).

(** The text a task prints when it finds the low bit of the wait
    result set. *)
Definition task_miss_text (t : task_id) : option string :=
  match t with
  | IDLE => None
  | TASK_TIMER => Some timer_task_code.miss_text
  | TASK_ACC => Some task_acc_code.miss_text
  | TASK_ACC_FILTER => Some task_acc_filter_code.miss_text
  | TASK_PLOT => Some task_plot_code.miss_text
  end.

(** The texts printed with [printf] among some events. *)
Definition printfs (ev : list event) : list string :=
  omap (fun e => match e with Printf text => Some text | _ => None end) ev.

(** The same release with another wait result. *)
Definition with_deadline (r : release) (d : Z) : release :=
  {| rel_task := rel_task r; rel_deadline := d; rel_sensor := rel_sensor r |}.

(** The accesses to the shared cell among some events. *)
Definition accesses (ev : list event) : nat :=
  length (loads ev ++ stores ev).

Definition touches_cell (t : task_id) : bool :=
  match t with
  | TASK_ACC | TASK_ACC_FILTER | TASK_PLOT => true
  | IDLE | TASK_TIMER => false
  end.

(** ** Definitions for the rest of main.c *)

(** The timer task over a list of wait results. *)
Definition timer_run (deadlines : list Z)
  : timer_task_code.locals * list (list event) :=
  run_loop timer_task_code.loop_body deadlines timer_task_code.init.

(** A sample lies in the box spanned by [lo] and [hi], axis by axis. *)
Definition within_box (lo hi p : position_t) : Prop :=
  x lo <= x p <= x hi /\ y lo <= y p <= y hi /\ z lo <= z p <= z hi.

(** The releases of one task in a schedule. *)
Definition releases_of (t : task_id) (schedule : list release) : list release :=
  filter (fun r => rel_task r = t) schedule.

(** [size_t] is 32 bits on the target.  The rectangle arguments are in
    range and the upper bounds are below [SIZE_MAX], so that [x <= end_x]
    and [y <= end_y] eventually fail. *)
Definition SIZE_MAX : Z := 4294967295.

Definition rectangle_args (start_x start_y end_x end_y : Z) : Prop :=
  0 <= start_x <= SIZE_MAX /\ 0 <= start_y <= SIZE_MAX
  /\ 0 <= end_x < SIZE_MAX /\ 0 <= end_y < SIZE_MAX.

(** ** main, up to the start of multitasking

    [main] shows a welcome screen, polls the push buttons until one is
    pressed, initialises the kernel, retries the accelerometer until it
    opens and initialises, draws the axes, creates the tasks and calls
    [tsw_on].  What the environment answers is taken from a record:
    the successive values of the button register, the successive
    results of [accelerometer_open_dev] and [accelerometer_init], the
    two version numbers, and the canvas size (macros of the VGA driver
    header).  The three loops of [main] have no bound; each is embedded
    as a recursion over the answers it consumes and yields [None] when
    the recorded answers end with the loop still waiting. *)

Inductive main_event : Set :=
| ClearScreen (c : colour)
| MainCall (e : event)          (* tty_print, draw_hline, printf of a text *)
| ReadButtons (value : Z)       (* IORD_ALTERA_AVALON_PIO_DATA(...) *)
| SierraInitiation
| PrintfInt (format : string) (value : Z)
| SetTimebase (n : Z)
| AccelerometerOpenDev (result : Z)
| AccelerometerInit (result : Z)
| DrawVline (px py len : Z) (c : colour)
| TaskCreate (call : task_create_call)
| TswOn.

Record main_env : Set := mk_main_env {
  pio_reads : list Z;
  open_results : list Z;
  init_results : list Z;
  HW_version : Z;
  SW_driver_version : Z;
  CANVAS_WIDTH : Z;
  CANVAS_HEIGHT : Z
}.

(** [int button = 3; while (button == 3) button = 0x3 & IORD(...);]
    The first read always happens.  The result is the final value of
    [button] with the reads made. *)
Fixpoint button_wait (reads : list Z) : option (Z * list main_event) :=
  match reads with
  | [] => None
  | v :: rest =>
      let button := to_int (Z.land 3 v) in
      if button =? 3 then
        match button_wait rest with
        | Some (b, ev) => Some (b, ReadButtons v :: ev)
        | None => None
        end
      else Some (button, [ReadButtons v])
  end.

(** [while (!f()) printf(complaint);] for [f] either
    [accelerometer_open_dev] or [accelerometer_init]: the call is
    repeated while it returns 0 and every failure is followed by the
    complaint. *)
Fixpoint retry_until_ready (call : Z -> main_event) (complaint : string)
    (results : list Z) : option (list main_event) :=
  match results with
  | [] => None
  | r :: rest =>
      if r =? 0 then
        match retry_until_ready call complaint rest with
        | Some ev => Some (call r :: MainCall (Printf complaint) :: ev)
        | None => None
        end
      else Some [call r]
  end.

Definition open_complaint : string :=
  "Unable to open accelerometer device!" +:+ newline.

Definition init_complaint : string :=
  "Unable to initialize accelerometer!" +:+ newline.

(** The calls of [main] from its first statement to [tsw_on()].  The
    loop after [tsw_on()] is reached only if the kernel gives control
    back, which the program treats as a fault. *)
Definition main (env : main_env) : option (list main_event) :=
  match button_wait (pio_reads env) with
  | None => None
  | Some (button, polls) =>
      match retry_until_ready AccelerometerOpenDev open_complaint
              (open_results env) with
      | None => None
      | Some opening =>
          match retry_until_ready AccelerometerInit init_complaint
                  (init_results env) with
          | None => None
          | Some initialising =>
              Some ([ClearScreen Col_Black;
                     MainCall (TtyPrint 150 20 "Menyar Hees" Col_Magenta
                                 Col_Black);
                     MainCall (TtyPrint 140 120 "press any button" Col_Red
                                 Col_Black)]
                      ++ polls
                      ++ [ClearScreen Col_Black;
                          SierraInitiation;
                          PrintfInt ("Sierra HW version = %d" +:+ newline)
                            (HW_version env);
                          PrintfInt
                            ("Sierra SW driver version = %d" +:+ newline)
                            (SW_driver_version env);
                          SetTimebase set_timebase_argument]
                      ++ opening
                      ++ initialising
                      ++ [MainCall
                            (DrawHline 0 120 (int_add (CANVAS_WIDTH env) (-1))
                               Col_White);
                          DrawVline 160 0 (int_add (CANVAS_HEIGHT env) (-1))
                            Col_White]
                      ++ (TaskCreate <$> main_task_creates)
                      ++ [TswOn])
          end
      end
  end.

(** A button register value with at least one of the two low bits
    clear: the buttons are read as 3 while none is pressed. *)
Definition button_pressed (v : Z) : Prop := Z.land 3 v <> 3.

Global Instance button_pressed_dec (v : Z) : Decision (button_pressed v).
Proof. unfold button_pressed. apply _. Defined.

(** The tasks created in a trace of [main], in order. *)
Definition created (trace : list main_event) : list task_create_call :=
  omap (fun e => match e with TaskCreate c => Some c | _ => None end) trace.

Definition is_startup_wait (e : main_event) : bool :=
  match e with
  | ReadButtons _ | AccelerometerOpenDev _ | AccelerometerInit _ => true
  | _ => false
  end.

Definition is_task_start (e : main_event) : bool :=
  match e with
  | TaskCreate _ | TswOn => true
  | _ => false
  end.

(** An environment in which the second read shows no button (7 has
    both low bits set), the third does, the accelerometer opens at
    the third attempt and initialises at the second. *)
Definition main_example_env : main_env :=
  {| pio_reads := [3; 7; 2; 3];
     open_results := [0; 0; 1];
     init_results := [0; 1];
     HW_version := 4;
     SW_driver_version := 2;
     CANVAS_WIDTH := 320;
     CANVAS_HEIGHT := 240 |}.

(** ** The delay loop of the idle task

    [for (i = 0; i < 500000; i++);] with [i] an [int].  [fuel] bounds
    the number of tests of the loop condition; the result is the value
    of [i] when the condition fails, [None] if the fuel runs out
    first. *)
Fixpoint count_up (fuel : nat) (i bound : Z) : option Z :=
  match fuel with
  | O => None
  | S fuel' =>
      if i <? bound then count_up fuel' (int_add i 1) bound else Some i
  end.

Definition idle_delay (fuel : nat) : option Z := count_up fuel 0 500000.

(** ** Calls of clear_screen_range, expanded

    [ClearScreenRange] records a call of main.c's own
    [clear_screen_range]; what the call does to the screen is the pixel
    writes of that function.  [expand_calls] replaces every such call
    among some events by its pixel writes and leaves the calls into the
    drivers as they are. *)
Definition expand_calls (ev : list event) : list event :=
  flat_map (fun e => match e with
                     | ClearScreenRange start_x start_y end_x end_y =>
                         clear_screen_range start_x start_y end_x end_y
                     | _ => [e]
                     end) ev.

(** The arguments of the [clear_screen_range] calls among some events. *)
Definition clear_calls (ev : list event) : list (Z * Z * Z * Z) :=
  omap (fun e => match e with
                 | ClearScreenRange start_x start_y end_x end_y =>
                     Some (start_x, start_y, end_x, end_y)
                 | _ => None
                 end) ev.

(** A call into a driver or the kernel that writes no pixel itself. *)
Definition is_driver_call (e : event) : bool :=
  match e with
  | ClearScreenRange _ _ _ _ | WritePixel _ _ _ => false
  | _ => true
  end.

(** The arguments of the [set_timebase] calls in a trace of [main]. *)
Definition timebases (trace : list main_event) : list Z :=
  omap (fun e => match e with SetTimebase n => Some n | _ => None end) trace.

(** The priority argument with which a trace of [main] creates a task. *)
Definition priority_in (trace : list main_event) (t : task_id) : option Z :=
  tc_priority <$> head (filter (fun c => tc_id c = t) (created trace)).

(** Modelled from the spec: the kernel's order on the priority
    arguments of [task_create], which main.c uses and does not define.
    The spec (2, 4.6) has the idle task, which [main] creates with
    argument 0, at the lowest scheduling priority, below the periodic
    tasks created with argument 1: the smaller argument is the lower
    priority. *)
Definition lower_priority (a b : Z) : Prop := a < b.

(** * Properties *)

(** ** Machine arithmetic *)

Lemma to_int_exact (v : Z) : in_int v -> to_int v = v.
Proof.
  unfold in_int, INT_MIN, INT_MAX, to_int, wrap_signed. intros Hv.
  change (2 ^ (32 - 1)) with 2147483648.
  change (2 ^ 32) with 4294967296.
  rewrite Z.mod_small; lia.
Qed.

Lemma int_add_exact (a b : Z) : in_int (a + b) -> int_add a b = a + b.
Proof. apply to_int_exact. Qed.

Lemma int_mul_exact (a b : Z) : in_int (a * b) -> int_mul a b = a * b.
Proof. apply to_int_exact. Qed.

Lemma int_div_exact (a b : Z) :
  in_int a -> 0 < b -> int_div a b = Z.quot a b.
Proof.
  intros Ha Hb. apply to_int_exact.
  unfold in_int, INT_MIN, INT_MAX in *.
  destruct (Z.le_gt_cases 0 a) as [Hpos | Hneg].
  - pose proof (Z.quot_pos a b Hpos Hb).
    pose proof (Z.quot_le_upper_bound a b a Hb).
    nia.
  - pose proof (Z.quot_opp_l a b ltac:(lia)) as Hopp.
    pose proof (Z.quot_pos (- a) b ltac:(lia) Hb).
    pose proof (Z.quot_le_upper_bound (- a) b (- a) Hb).
    nia.
Qed.

Lemma int_mod_exact (a b : Z) :
  0 <= a -> in_int a -> 0 < b -> int_mod a b = a mod b.
Proof.
  intros Ha Hin Hb. unfold int_mod.
  rewrite Z.rem_mod_nonneg by lia.
  apply to_int_exact. unfold in_int, INT_MIN, INT_MAX in *.
  pose proof (Z.mod_pos_bound a b Hb).
  pose proof (Z.mod_le a b Ha Hb). lia.
Qed.

(** The low bit of the wait result, three ways. *)
Lemma deadline_missed_testbit (d : Z) : deadline_missed d = Z.testbit d 0.
Proof.
  unfold deadline_missed.
  change 1 with (Z.ones 1). rewrite Z.land_ones by lia.
  change (2 ^ 1) with 2. rewrite <- Z.bit0_mod.
  destruct (Z.testbit d 0); reflexivity.
Qed.

Lemma deadline_missed_land (d : Z) :
  deadline_missed d = true <-> Z.land d 1 <> 0.
Proof.
  unfold deadline_missed. destruct (Z.eqb_spec (Z.land d 1) 0); simpl.
  - split; [discriminate | contradiction].
  - split; [auto | reflexivity].
Qed.

(** ** run_loop *)

Section RunLoop.
  Context {St In : Type} (body : In -> St -> St * list event).

Lemma run_loop_cons (i : In) (l : list In) (s : St) :
  run_loop body (i :: l) s =
  let b := body i s in
  let r := run_loop body l b.1 in
  (r.1, b.2 :: r.2).
Proof.
  simpl. destruct (body i s) as [s1 ev]. simpl.
  destruct (run_loop body l s1); reflexivity.
Qed.

Lemma run_loop_app (l1 l2 : list In) (s : St) :
  run_loop body (l1 ++ l2) s =
  let r1 := run_loop body l1 s in
  let r2 := run_loop body l2 r1.1 in
  (r2.1, r1.2 ++ r2.2).
Proof.
  revert s. induction l1 as [| i l1 IH]; intros s; simpl.
  - destruct (run_loop body l2 s); reflexivity.
  - destruct (body i s) as [s1 ev]. rewrite IH. simpl.
    destruct (run_loop body l1 s1) as [s2 evs]. simpl.
    destruct (run_loop body l2 s2); reflexivity.
Qed.

Lemma run_loop_snoc (l : list In) (i : In) (s : St) :
  run_loop body (l ++ [i]) s =
  let r := run_loop body l s in
  let b := body i r.1 in
  (b.1, r.2 ++ [b.2]).
Proof.
  rewrite run_loop_app. simpl.
  destruct (body i (run_loop body l s).1); reflexivity.
Qed.

(** One record of events per input: no iteration is skipped and the
    loop is never left. *)
Lemma run_loop_length (l : list In) (s : St) :
  length (run_loop body l s).2 = length l.
Proof.
  revert s. induction l as [| i l IH]; intros s; simpl; [reflexivity |].
  destruct (body i s) as [s1 ev]. specialize (IH s1).
  destruct (run_loop body l s1); simpl in *. congruence.
Qed.

(** The events of iteration [k] are those of the body run on input
    [k] from the state reached after the first [k] inputs. *)
Lemma run_loop_lookup (l : list In) (s : St) (k : nat) (i : In) :
  l !! k = Some i ->
  (run_loop body l s).2 !! k
  = Some (body i (run_loop body (take k l) s).1).2
  /\ (run_loop body (take (S k) l) s).1
     = (body i (run_loop body (take k l) s).1).1.
Proof.
  revert s k. induction l as [| j l IH]; intros s k Hk; [done |].
  destruct k as [| k]; simpl in *.
  - injection Hk as ->.
    destruct (body i s) as [s1 ev]. destruct (run_loop body l s1). done.
  - destruct (body j s) as [s1 ev].
    destruct (IH s1 k Hk) as [IH1 IH2].
    destruct (run_loop body l s1) as [s2 evs] eqn:E2. simpl in *.
    destruct (run_loop body (take k l) s1) as [s3 evs3] eqn:E3. simpl in *.
    split; [exact IH1 |].
    destruct l as [| j' l']; [done |].
    simpl in *. destruct (body j' s1) as [s4 ev4].
    destruct (run_loop body (take k l') s4) as [s5 evs5]. simpl in *.
    exact IH2.
Qed.
End RunLoop.

(** ** Sums of samples *)

Lemma sum_of_app (field : position_t -> Z) (l1 l2 : list position_t) :
  sum_of field (l1 ++ l2) = sum_of field l1 + sum_of field l2.
Proof.
  induction l1 as [| p l1 IH]; simpl; [reflexivity |].
  rewrite IH. lia.
Qed.

Lemma sum_x_app (l1 l2 : list position_t) :
  sum_x (l1 ++ l2) = sum_x l1 + sum_x l2.
Proof. apply sum_of_app. Qed.

Lemma sum_y_app (l1 l2 : list position_t) :
  sum_y (l1 ++ l2) = sum_y l1 + sum_y l2.
Proof. apply sum_of_app. Qed.

Lemma sum_z_app (l1 l2 : list position_t) :
  sum_z (l1 ++ l2) = sum_z l1 + sum_z l2.
Proof. apply sum_of_app. Qed.

Lemma mean10_app_comm (l1 l2 : list position_t) :
  mean10 (l1 ++ l2) = mean10 (l2 ++ l1).
Proof.
  unfold mean10. rewrite !sum_x_app, !sum_y_app, !sum_z_app.
  f_equal; [f_equal |]; f_equal; lia.
Qed.

(** Each per-axis sum of [n] in-range samples lies between [n] times
    the least and [n] times the greatest [int16_t]. *)
Lemma sum_bounds (l : list position_t) :
  Forall sample_ok l ->
  let n := Z.of_nat (length l) in
  (INT16_MIN * n <= sum_x l <= INT16_MAX * n)
  /\ (INT16_MIN * n <= sum_y l <= INT16_MAX * n)
  /\ (INT16_MIN * n <= sum_z l <= INT16_MAX * n).
Proof.
  unfold sum_x, sum_y, sum_z, INT16_MIN, INT16_MAX.
  induction 1 as [| p l [Hx [Hy Hz]] _ IH]; simpl; [lia |].
  unfold in_int16, INT16_MIN, INT16_MAX in *.
  cbv zeta in IH. lia.
Qed.

(** The accumulation loop of the filter task, iteration by iteration:
    as long as the samples are in range the [int] accumulators hold the
    exact sums of the slots visited so far. *)
Lemma sum_loop_succ (arr : list position_t) (n : nat) :
  task_acc_filter_code.sum_loop arr (S n)
  = task_acc_filter_code.accumulate arr
      (task_acc_filter_code.sum_loop arr n) n.
Proof.
  unfold task_acc_filter_code.sum_loop.
  rewrite seq_S, fold_left_app. reflexivity.
Qed.

Lemma sum_loop_exact (arr : list position_t) (n : nat) :
  Forall sample_ok arr -> (n <= length arr)%nat -> (n <= 10)%nat ->
  task_acc_filter_code.sum_loop arr n
  = (sum_x (take n arr), sum_y (take n arr), sum_z (take n arr)).
Proof.
  intros Hok. induction n as [| n IH]; intros Hlen Hn.
  - reflexivity.
  - rewrite sum_loop_succ, IH by lia.
    destruct (lookup_lt_is_Some_2 arr n ltac:(lia)) as [p Hp].
    rewrite (take_S_r _ _ _ Hp).
    rewrite sum_x_app, sum_y_app, sum_z_app.
    unfold task_acc_filter_code.accumulate.
    rewrite (list_lookup_total_correct _ _ _ Hp).
    assert (Hpre : Forall sample_ok (take n arr)) by (by apply Forall_take).
    pose proof (sum_bounds _ Hpre) as (Bx & By & Bz).
    rewrite length_take in Bx, By, Bz.
    rewrite Nat.min_l in Bx, By, Bz by lia.
    destruct (proj1 (Forall_forall _ _) Hok p
                (proj2 (list_elem_of_lookup _ _) (ex_intro _ n Hp)))
      as (Px & Py & Pz).
    change (sum_x [p]) with (x p + 0). change (sum_y [p]) with (y p + 0).
    change (sum_z [p]) with (z p + 0).
    unfold in_int16, INT16_MIN, INT16_MAX in *.
    rewrite !int_add_exact
      by (unfold in_int, INT_MIN, INT_MAX; lia).
    f_equal; [f_equal |]; lia.
Qed.

(** ** The filter task's local variables after one iteration *)

Lemma filter_body_array (d : Z) (g : position_t)
    (s : task_acc_filter_code.locals) :
  task_acc_filter_code.acc_array (task_acc_filter_code.loop_body d g s).1
  = <[Z.to_nat (task_acc_filter_code.counter s) := g]>
      (task_acc_filter_code.acc_array s).
Proof.
  unfold task_acc_filter_code.loop_body.
  destruct (task_acc_filter_code.sampled_ten_times s).
  - destruct (task_acc_filter_code.sum_loop _ _) as [[sx sy] sz]. reflexivity.
  - destruct (_ =? 9); reflexivity.
Qed.

Lemma filter_body_counter (d : Z) (g : position_t)
    (s : task_acc_filter_code.locals) :
  task_acc_filter_code.counter (task_acc_filter_code.loop_body d g s).1
  = int_mod (int_add (task_acc_filter_code.counter s) 1) 10.
Proof.
  unfold task_acc_filter_code.loop_body.
  destruct (task_acc_filter_code.sampled_ten_times s).
  - destruct (task_acc_filter_code.sum_loop _ _) as [[sx sy] sz]. reflexivity.
  - destruct (_ =? 9); reflexivity.
Qed.

Lemma filter_body_flag (d : Z) (g : position_t)
    (s : task_acc_filter_code.locals) :
  task_acc_filter_code.sampled_ten_times
    (task_acc_filter_code.loop_body d g s).1
  = task_acc_filter_code.sampled_ten_times s
    || (task_acc_filter_code.counter s =? 9).
Proof.
  unfold task_acc_filter_code.loop_body.
  destruct (task_acc_filter_code.sampled_ten_times s) eqn:E.
  - destruct (task_acc_filter_code.sum_loop _ _) as [[sx sy] sz].
    reflexivity.
  - destruct (_ =? 9); reflexivity.
Qed.

Lemma filter_body_events_priming (d : Z) (g : position_t)
    (s : task_acc_filter_code.locals) :
  task_acc_filter_code.sampled_ten_times s = false ->
  (task_acc_filter_code.loop_body d g s).2
  = filter_head d g
      ++ (if task_acc_filter_code.counter s =? 9
          then [ClearScreenRange 170 0 319 110]
          else [TtyPrint 200 65 "sampling..." Col_White Col_Black])
  /\ task_acc_filter_code.avg_x (task_acc_filter_code.loop_body d g s).1
     = task_acc_filter_code.avg_x s
  /\ task_acc_filter_code.avg_y (task_acc_filter_code.loop_body d g s).1
     = task_acc_filter_code.avg_y s
  /\ task_acc_filter_code.avg_z (task_acc_filter_code.loop_body d g s).1
     = task_acc_filter_code.avg_z s.
Proof.
  intros E. unfold task_acc_filter_code.loop_body, filter_head. rewrite E.
  destruct (_ =? 9); simpl; auto.
Qed.

Lemma filter_body_events_primed (d : Z) (g : position_t)
    (s : task_acc_filter_code.locals) :
  task_acc_filter_code.sampled_ten_times s = true ->
  let s' := (task_acc_filter_code.loop_body d g s).1 in
  let sums :=
    task_acc_filter_code.sum_loop (task_acc_filter_code.acc_array s') 10 in
  (task_acc_filter_code.loop_body d g s).2
  = filter_head d g
      ++ [TtyPrint 220 50 "X" Col_White Col_Black;
          IntPrint 230 50 (task_acc_filter_code.avg_x s') 3
            Col_White Col_Black;
          TtyPrint 220 60 "Y" Col_White Col_Black;
          IntPrint 230 60 (task_acc_filter_code.avg_y s') 3
            Col_White Col_Black;
          TtyPrint 220 70 "Z" Col_White Col_Black;
          IntPrint 230 70 (task_acc_filter_code.avg_z s') 3
            Col_White Col_Black]
  /\ task_acc_filter_code.avg_x s' = int_div sums.1.1 10
  /\ task_acc_filter_code.avg_y s' = int_div sums.1.2 10
  /\ task_acc_filter_code.avg_z s' = int_div sums.2 10.
Proof.
  intros E. cbv zeta. rewrite filter_body_array.
  unfold task_acc_filter_code.loop_body, filter_head. rewrite E.
  destruct (task_acc_filter_code.sum_loop _ _) as [[sx sy] sz]. simpl. auto.
Qed.

(** ** The ring buffer *)

Lemma last_n_all {A : Type} (n : nat) (l : list A) :
  length l = n -> last_n n l = l.
Proof. intros <-. unfold last_n. by rewrite Nat.sub_diag. Qed.

Lemma last_n_length {A : Type} (n : nat) (l : list A) :
  (n <= length l)%nat -> length (last_n n l) = n.
Proof. intros H. unfold last_n. rewrite length_drop. lia. Qed.

Lemma last_n_snoc {A : Type} (n : nat) (l : list A) (a : A) :
  (S n <= length l)%nat ->
  last_n (S n) (l ++ [a]) = drop 1 (last_n (S n) l) ++ [a].
Proof.
  intros H. unfold last_n. rewrite length_app. simpl.
  rewrite drop_drop, drop_app_le by lia.
  f_equal. f_equal. lia.
Qed.

Lemma last_n_app_r {A : Type} (n : nat) (l1 l2 : list A) :
  (n <= length l2)%nat -> last_n n (l1 ++ l2) = last_n n l2.
Proof.
  intros H. unfold last_n. rewrite length_app.
  rewrite drop_app_ge by lia. f_equal. lia.
Qed.

(** Advancing a cursor modulo [m]. *)
Lemma succ_mod (m n : nat) :
  (0 < m)%nat ->
  ((n + 1) mod m
   = if decide (n mod m + 1 = m)%nat then 0 else n mod m + 1)%nat.
Proof.
  intros Hm.
  pose proof (Nat.mod_upper_bound n m ltac:(lia)) as Hlt.
  rewrite <- Nat.Div0.add_mod_idemp_l.
  case_decide as Hd.
  - rewrite Hd. apply Nat.Div0.mod_same.
  - apply Nat.mod_small. lia.
Qed.

Lemma succ_mod_Z (m n : nat) :
  (0 < m)%nat ->
  (Z.of_nat (n mod m) + 1) mod Z.of_nat m = Z.of_nat ((n + 1) mod m).
Proof.
  intros Hm. rewrite !Nat2Z.inj_mod, Nat2Z.inj_add.
  rewrite Z.add_mod_idemp_l by lia. reflexivity.
Qed.

Lemma filter_inv_init (garbage : list position_t) :
  length garbage = 10%nat ->
  filter_inv garbage [] (task_acc_filter_code.init garbage).
Proof.
  intros Hg. unfold filter_inv. simpl. split; [reflexivity |].
  split; [reflexivity |].
  exists [], garbage. rewrite !app_nil_r, last_n_all by done. done.
Qed.

Lemma filter_inv_step (garbage loaded : list position_t) (d : Z)
    (g : position_t) (s : task_acc_filter_code.locals) :
  length garbage = 10%nat ->
  filter_inv garbage loaded s ->
  filter_inv garbage (loaded ++ [g]) (task_acc_filter_code.loop_body d g s).1.
Proof.
  intros Hg (Hc & Hf & newer & older & Harr & Hwin & Hnew & Hlen).
  unfold filter_inv.
  rewrite filter_body_counter, filter_body_flag, filter_body_array.
  rewrite length_app. simpl length.
  set (n := length loaded) in *.
  assert (Hlt : (n mod 10 < 10)%nat) by (apply Nat.mod_upper_bound; lia).
  rewrite Hc, Hf, Harr.
  rewrite int_add_exact by (unfold in_int, INT_MIN, INT_MAX; lia).
  rewrite int_mod_exact by (unfold in_int, INT_MIN, INT_MAX; lia).
  split; [exact (succ_mod_Z 10 n ltac:(lia)) |].
  pose proof (succ_mod 10 n ltac:(lia)) as Hsucc.
  split.
  { destruct (Z.eqb_spec (Z.of_nat (n mod 10)) 9); case_decide;
      repeat case_bool_decide; simpl; try reflexivity; try lia.
    all: pose proof (Nat.mod_small n 10); lia. }
  rewrite Nat2Z.id, Hsucc. clear Hsucc.
  rewrite length_app in Hlen.
  destruct older as [| oldest older]; [simpl in Hlen; lia |].
  assert (Hins : <[(n mod 10)%nat:=g]> (newer ++ oldest :: older)
                 = newer ++ g :: older).
  { rewrite <- Hnew, insert_app_r_alt, Nat.sub_diag by lia. reflexivity. }
  rewrite Hins. clear Hins.
  rewrite app_assoc, last_n_snoc, Hwin by (rewrite length_app; lia).
  change (drop 1 ((oldest :: older) ++ newer)) with (older ++ newer).
  simpl length in Hlen.
  destruct older as [| o older].
  - exists [], (newer ++ [g]).
    simpl in Hlen.
    rewrite decide_True by lia.
    rewrite !app_nil_r.
    repeat split; try reflexivity; rewrite ?length_app; simpl length; lia.
  - exists (newer ++ [g]), (o :: older).
    simpl in Hlen.
    rewrite decide_False by lia.
    rewrite <- !app_assoc.
    repeat split; try reflexivity; rewrite ?length_app; simpl length; lia.
Qed.

Lemma run_loop_filter_snoc (garbage : list position_t)
    (inputs : list (Z * position_t)) (d : Z) (g : position_t) :
  filter_run garbage (inputs ++ [(d, g)])
  = let r := filter_run garbage inputs in
    let b := task_acc_filter_code.loop_body d g r.1 in
    (b.1, r.2 ++ [b.2]).
Proof. unfold filter_run. by rewrite run_loop_snoc. Qed.

Lemma filter_run_inv (garbage : list position_t)
    (inputs : list (Z * position_t)) :
  length garbage = 10%nat ->
  filter_inv garbage inputs.*2 (filter_run garbage inputs).1.
Proof.
  intros Hg. induction inputs as [| [d g] inputs IH] using rev_ind.
  - by apply filter_inv_init.
  - rewrite run_loop_filter_snoc, fmap_app. simpl.
    by apply filter_inv_step.
Qed.

(** ** What one iteration of the filter task shows and loads *)

Lemma loads_report (d : Z) (text : string) :
  loads (report_deadline d text) = [].
Proof. unfold report_deadline. by destruct (deadline_missed d). Qed.

Lemma loads_app (e1 e2 : list event) : loads (e1 ++ e2) = loads e1 ++ loads e2.
Proof. unfold loads. apply omap_app. Qed.

Lemma filter_body_loads (d : Z) (g : position_t)
    (s : task_acc_filter_code.locals) :
  loads (task_acc_filter_code.loop_body d g s).2 = [g].
Proof.
  destruct (task_acc_filter_code.sampled_ten_times s) eqn:E.
  - destruct (filter_body_events_primed d g s E) as [-> _].
    unfold filter_head. rewrite !loads_app, loads_report. reflexivity.
  - destruct (filter_body_events_priming d g s E) as [-> _].
    unfold filter_head. rewrite !loads_app, loads_report.
    by destruct (_ =? 9).
Qed.

Lemma displayed_average_primed (d : Z) (g : position_t) (ax ay az : Z) :
  displayed_average
    (filter_head d g
       ++ [TtyPrint 220 50 "X" Col_White Col_Black;
           IntPrint 230 50 ax 3 Col_White Col_Black;
           TtyPrint 220 60 "Y" Col_White Col_Black;
           IntPrint 230 60 ay 3 Col_White Col_Black;
           TtyPrint 220 70 "Z" Col_White Col_Black;
           IntPrint 230 70 az 3 Col_White Col_Black])
  = Some (ax, ay, az).
Proof.
  unfold filter_head, report_deadline.
  by destruct (deadline_missed d).
Qed.

Lemma no_int_print_priming (d : Z) (g : position_t) (c : Z) :
  let ev :=
    filter_head d g
      ++ (if c =? 9 then [ClearScreenRange 170 0 319 110]
          else [TtyPrint 200 65 "sampling..." Col_White Col_Black]) in
  Forall (fun e => is_int_print e = false) ev
  /\ displayed_average ev = None.
Proof.
  unfold filter_head, report_deadline.
  destruct (deadline_missed d), (c =? 9); simpl;
    (split; [repeat constructor | reflexivity]).
Qed.

(** ** The filter task once primed: the average is the truncated mean
    of the last ten loaded values *)

Lemma filter_primed_period (garbage : list position_t)
    (inputs : list (Z * position_t)) (d : Z) (g : position_t) :
  length garbage = 10%nat ->
  (10 <= length inputs)%nat ->
  Forall sample_ok (inputs.*2 ++ [g]) ->
  let b := task_acc_filter_code.loop_body d g (filter_run garbage inputs).1 in
  let window := last_n 10 (inputs.*2 ++ [g]) in
  displayed_average b.2 = Some (mean10 window)
  /\ (task_acc_filter_code.avg_x b.1, task_acc_filter_code.avg_y b.1,
      task_acc_filter_code.avg_z b.1) = mean10 window
  /\ task_acc_filter_code.acc_array b.1 ≡ₚ window.
Proof.
  intros Hg Hn Hok. cbv zeta.
  pose proof (filter_run_inv garbage inputs Hg) as Hinv.
  pose proof (filter_inv_step _ _ d g _ Hg Hinv)
    as (_ & _ & newer & older & Harr & Hwin & _ & Hlen).
  destruct Hinv as (_ & Hflag & _).
  rewrite length_fmap in Hflag.
  rewrite bool_decide_eq_true_2 in Hflag by lia.
  destruct (filter_body_events_primed d g _ Hflag) as (Hev & Hx & Hy & Hz).
  cbv zeta in Hev, Hx, Hy, Hz.
  rewrite last_n_app_r in Hwin
    by (rewrite length_app, length_fmap; simpl; lia).
  set (window := last_n 10 (inputs.*2 ++ [g])) in *.
  assert (Hwok : Forall sample_ok window).
  { unfold window, last_n. by apply Forall_drop. }
  assert (Haok : Forall sample_ok (newer ++ older)).
  { rewrite Hwin in Hwok. apply Forall_app in Hwok as [? ?].
    apply Forall_app. done. }
  rewrite Harr in Hx, Hy, Hz.
  rewrite sum_loop_exact in Hx, Hy, Hz by (done || lia).
  rewrite <- Hlen, firstn_all in Hx, Hy, Hz. simpl in Hx, Hy, Hz.
  pose proof (sum_bounds _ Haok) as (Bx & By & Bz).
  rewrite Hlen in Bx, By, Bz. cbv zeta in Bx, By, Bz.
  unfold INT16_MIN, INT16_MAX in Bx, By, Bz.
  rewrite int_div_exact in Hx, Hy, Hz
    by (unfold in_int, INT_MIN, INT_MAX; lia).
  assert (Hmean : (task_acc_filter_code.avg_x
                     (task_acc_filter_code.loop_body d g
                        (filter_run garbage inputs).1).1,
                   task_acc_filter_code.avg_y
                     (task_acc_filter_code.loop_body d g
                        (filter_run garbage inputs).1).1,
                   task_acc_filter_code.avg_z
                     (task_acc_filter_code.loop_body d g
                        (filter_run garbage inputs).1).1)
                  = mean10 window).
  { rewrite Hx, Hy, Hz, Hwin. symmetry. apply mean10_app_comm. }
  split; [| split].
  - rewrite Hev, displayed_average_primed. by rewrite Hmean.
  - exact Hmean.
  - rewrite Harr, Hwin. apply Permutation_app_comm.
Qed.

(** ** From the system to the filter task *)

Lemma events_of_cons (t : task_id) (r : release) (rest : list release)
    (ev : list event) (log : list (list event)) :
  events_of t (r :: rest) (ev :: log)
  = (if decide (rel_task r = t) then [ev] else []) ++ events_of t rest log.
Proof. unfold events_of. simpl. by destruct (decide (rel_task r = t)). Qed.

Lemma period_cell (r : release) (w : world) :
  global_acc_data (period r w).1
  = if decide (rel_task r = TASK_ACC) then rel_sensor r
    else global_acc_data w.
Proof.
  unfold period. destruct (rel_task r); simpl; try reflexivity.
  by destruct (task_acc_filter_code.loop_body _ _ _).
Qed.

Lemma period_filter (r : release) (w : world) :
  rel_task r = TASK_ACC_FILTER ->
  filter_locals (period r w).1
  = (task_acc_filter_code.loop_body (rel_deadline r) (global_acc_data w)
       (filter_locals w)).1
  /\ (period r w).2
     = (task_acc_filter_code.loop_body (rel_deadline r) (global_acc_data w)
          (filter_locals w)).2.
Proof.
  intros E. unfold period. rewrite E.
  by destruct (task_acc_filter_code.loop_body _ _ _).
Qed.

Lemma period_filter_other (r : release) (w : world) :
  rel_task r <> TASK_ACC_FILTER ->
  filter_locals (period r w).1 = filter_locals w.
Proof.
  intros E. unfold period. destruct (rel_task r); simpl; done.
Qed.

Lemma run_filter_projection (schedule : list release) (w : world) :
  let r := run_loop period schedule w in
  let f := run_loop
             (fun i => task_acc_filter_code.loop_body i.1 i.2)
             (reader_inputs TASK_ACC_FILTER schedule (global_acc_data w))
             (filter_locals w) in
  filter_locals r.1 = f.1
  /\ events_of TASK_ACC_FILTER schedule r.2 = f.2.
Proof.
  revert w. induction schedule as [| q rest IH]; intros w; [done |].
  cbv zeta. rewrite run_loop_cons. cbv zeta. cbn [fst snd].
  specialize (IH (period q w).1). cbv zeta in IH.
  rewrite events_of_cons. simpl reader_inputs.
  rewrite <- period_cell.
  destruct (decide (rel_task q = TASK_ACC_FILTER)) as [E | E].
  - destruct (period_filter q w E) as [H1 H2].
    simpl app. rewrite run_loop_cons. cbv zeta. cbn [fst snd].
    rewrite <- H1, <- H2. destruct IH as [IH1 IH2].
    by rewrite IH1, IH2.
  - simpl app. rewrite <- (period_filter_other q w E). exact IH.
Qed.

Lemma stores_app (e1 e2 : list event) :
  stores (e1 ++ e2) = stores e1 ++ stores e2.
Proof. unfold stores. apply omap_app. Qed.

Lemma stores_report (d : Z) (text : string) :
  stores (report_deadline d text) = [].
Proof. unfold report_deadline. by destruct (deadline_missed d). Qed.

Lemma period_stores (r : release) (w : world) :
  stores (period r w).2
  = if decide (rel_task r = TASK_ACC) then [rel_sensor r] else [].
Proof.
  unfold period. destruct (rel_task r); simpl.
  - reflexivity.
  - unfold timer_task_code.loop_body.
    by rewrite stores_app, stores_report.
  - unfold task_acc_code.loop_body.
    by rewrite stores_app, stores_report.
  - destruct (task_acc_filter_code.sampled_ten_times (filter_locals w))
      eqn:E.
    + destruct (filter_body_events_primed (rel_deadline r)
                  (global_acc_data w) _ E) as [H _].
      destruct (task_acc_filter_code.loop_body _ _ _). simpl in *.
      rewrite H. unfold filter_head.
      by rewrite !stores_app, stores_report.
    + destruct (filter_body_events_priming (rel_deadline r)
                  (global_acc_data w) _ E) as [H _].
      destruct (task_acc_filter_code.loop_body _ _ _). simpl in *.
      rewrite H. unfold filter_head.
      rewrite !stores_app, stores_report. by destruct (_ =? 9).
  - unfold task_plot_code.loop_body. simpl.
    rewrite !stores_app, stores_report.
    by destruct (_ =? 0).
Qed.

(** The shared cell always holds the value stored last. *)
Lemma cell_is_latest_store (schedule : list release) (w : world) :
  let r := run_loop period schedule w in
  global_acc_data r.1
  = default (global_acc_data w) (last (stores (concat r.2))).
Proof.
  revert w. induction schedule as [| q rest IH]; intros w; [done |].
  cbv zeta. rewrite run_loop_cons. cbv zeta. cbn [fst snd].
  specialize (IH (period q w).1). cbv zeta in IH.
  rewrite IH, period_cell. simpl concat.
  rewrite stores_app, last_app, period_stores.
  destruct (last (stores (concat _))); [reflexivity |].
  by destruct (decide (rel_task q = TASK_ACC)).
Qed.

Lemma reader_inputs_ok (t : task_id) (schedule : list release)
    (cell : position_t) :
  sample_ok cell ->
  sensors_ok schedule ->
  Forall sample_ok (reader_inputs t schedule cell).*2.
Proof.
  unfold sensors_ok. revert cell.
  induction schedule as [| q rest IH]; intros cell Hc Hs; [constructor |].
  apply Forall_cons in Hs as [Hq Hs]. simpl.
  rewrite fmap_app. apply Forall_app. split.
  - destruct (decide (rel_task q = t)); simpl;
      [apply Forall_cons; split; [exact Hc | constructor] | constructor].
  - apply IH; [| exact Hs].
    destruct (decide (rel_task q = TASK_ACC)) as [E | E];
      [exact (Hq E) | exact Hc].
Qed.

Lemma run_cell_ok (schedule : list release) (w : world) :
  sample_ok (global_acc_data w) ->
  sensors_ok schedule ->
  sample_ok (global_acc_data (run_loop period schedule w).1).
Proof.
  unfold sensors_ok.
  revert w. induction schedule as [| q rest IH]; intros w Hc Hs; [done |].
  apply Forall_cons in Hs as [Hq Hs].
  rewrite run_loop_cons. cbv zeta. cbn [fst snd].
  apply IH; [| exact Hs]. rewrite period_cell.
  destruct (decide (rel_task q = TASK_ACC)) as [E | E];
    [exact (Hq E) | exact Hc].
Qed.

Lemma zero_position_ok : sample_ok zero_position.
Proof. unfold sample_ok, in_int16, INT16_MIN, INT16_MAX. simpl. lia. Qed.

Lemma filter_run_loads (garbage : list position_t)
    (inputs : list (Z * position_t)) :
  loads (concat (filter_run garbage inputs).2) = inputs.*2.
Proof.
  induction inputs as [| [d g] inputs IH] using rev_ind; [done |].
  rewrite run_loop_filter_snoc. simpl.
  rewrite concat_app, loads_app, IH, fmap_app. simpl.
  by rewrite app_nil_r, filter_body_loads.
Qed.

(** ** Cursor, flag and averages of the filter task by iteration count *)

Lemma filter_run_cursor (garbage : list position_t)
    (inputs : list (Z * position_t)) :
  let s := (filter_run garbage inputs).1 in
  let n := length inputs in
  task_acc_filter_code.counter s = Z.of_nat (n mod 10)
  /\ task_acc_filter_code.sampled_ten_times s = bool_decide (10 <= n)%nat
  /\ ((n <= 10)%nat ->
      task_acc_filter_code.avg_x s = 0
      /\ task_acc_filter_code.avg_y s = 0
      /\ task_acc_filter_code.avg_z s = 0).
Proof.
  induction inputs as [| [d g] inputs IH] using rev_ind; [done |].
  cbv zeta in *. destruct IH as (Hc & Hf & Havg).
  rewrite run_loop_filter_snoc. cbv zeta. cbn [fst snd].
  rewrite length_app. simpl length.
  set (n := length inputs) in *.
  set (s := (filter_run garbage inputs).1) in *.
  assert (Hlt : (n mod 10 < 10)%nat) by (apply Nat.mod_upper_bound; lia).
  rewrite filter_body_counter, filter_body_flag, Hc, Hf.
  rewrite int_add_exact by (unfold in_int, INT_MIN, INT_MAX; lia).
  rewrite int_mod_exact by (unfold in_int, INT_MIN, INT_MAX; lia).
  split; [exact (succ_mod_Z 10 n ltac:(lia)) |].
  split.
  - pose proof (succ_mod 10 n ltac:(lia)) as Hsucc.
    pose proof (Nat.mod_small n 10).
    pose proof (Nat.div_mod_eq n 10).
    destruct (Z.eqb_spec (Z.of_nat (n mod 10)) 9); case_decide;
      repeat case_bool_decide; simpl; try reflexivity; lia.
  - intros Hn.
    rewrite bool_decide_eq_false_2 in Hf by lia.
    destruct (filter_body_events_priming d g s Hf) as (_ & -> & -> & ->).
    apply Havg. lia.
Qed.

(** The iteration in which the flag is raised: the cursor is 9, the
    region is cleared, nothing is averaged. *)
Lemma filter_priming_period (garbage : list position_t)
    (inputs : list (Z * position_t)) (d : Z) (g : position_t) :
  length inputs = 9%nat ->
  let s := (filter_run garbage inputs).1 in
  let b := task_acc_filter_code.loop_body d g s in
  task_acc_filter_code.counter s = 9
  /\ task_acc_filter_code.sampled_ten_times s = false
  /\ task_acc_filter_code.sampled_ten_times b.1 = true
  /\ b.2 = filter_head d g ++ [ClearScreenRange 170 0 319 110]
  /\ displayed_average b.2 = None
  /\ (task_acc_filter_code.avg_x b.1, task_acc_filter_code.avg_y b.1,
      task_acc_filter_code.avg_z b.1) = (0, 0, 0).
Proof.
  intros Hn. cbv zeta.
  destruct (filter_run_cursor garbage inputs) as (Hc & Hf & Havg).
  rewrite Hn in Hc, Hf, Havg. change (Z.of_nat (9 mod 10)) with 9 in Hc.
  rewrite bool_decide_eq_false_2 in Hf by lia.
  destruct (Havg ltac:(lia)) as (Hx & Hy & Hz).
  destruct (filter_body_events_priming d g _ Hf) as (Hev & Ex & Ey & Ez).
  rewrite Hc in Hev. change (9 =? 9) with true in Hev.
  rewrite filter_body_flag, Hc, Hf, Hev, Ex, Ey, Ez, Hx, Hy, Hz.
  repeat split; try reflexivity.
  exact (proj2 (no_int_print_priming d g 9)).
Qed.

(** ** C1 *)

(** C1, as amended.  In any schedule, with any deadline values, consider
    a release of the filter task.  The value it loads is the one most
    recently stored into the shared cell.  If it is the tenth release
    (the priming iteration) no average is shown and the averages stay
    0 while the flag is raised.  If at least ten releases precede it,
    the three values it shows, and keeps in [avg_x], [avg_y], [avg_z],
    are the per-axis sums of the last ten loaded values divided by 10
    with truncation toward zero, and the array holds exactly those ten
    values. *)
Theorem C1_average_is_mean_of_last_ten_loads
    (garbage : list position_t) (schedule : list release) (r : release) :
  length garbage = 10%nat ->
  sensors_ok schedule ->
  rel_task r = TASK_ACC_FILTER ->
  let before := run garbage schedule in
  let loaded := loads (concat (events_of TASK_ACC_FILTER schedule before.2)) in
  let now := period r before.1 in
  let s' := filter_locals now.1 in
  loads now.2 = [latest_store (concat before.2)]
  /\ (length loaded = 9%nat ->
      displayed_average now.2 = None
      /\ filter_averages s' = (0, 0, 0)
      /\ task_acc_filter_code.sampled_ten_times s' = true)
  /\ ((10 <= length loaded)%nat ->
      let window := last_n 10 (loaded ++ loads now.2) in
      displayed_average now.2 = Some (mean10 window)
      /\ filter_averages s' = mean10 window
      /\ task_acc_filter_code.acc_array s' ≡ₚ window).
Proof.
  intros Hg Hs Hr. cbv zeta. unfold run.
  destruct (run_filter_projection schedule (boot garbage)) as [Hst Hev].
  pose proof (cell_is_latest_store schedule (boot garbage)) as Hcell.
  cbv zeta in Hst, Hev, Hcell.
  change (default (global_acc_data (boot garbage)) ?o)
    with (default zero_position o) in Hcell.
  fold (latest_store (concat (run_loop period schedule (boot garbage)).2))
    in Hcell.
  change (global_acc_data (boot garbage)) with zero_position in Hst, Hev.
  change (filter_locals (boot garbage))
    with (task_acc_filter_code.init garbage) in Hst, Hev.
  set (inputs := reader_inputs TASK_ACC_FILTER schedule zero_position) in *.
  fold (filter_run garbage inputs) in Hst, Hev.
  destruct (period_filter r (run_loop period schedule (boot garbage)).1 Hr)
    as [-> ->].
  rewrite Hev, Hst, Hcell, filter_run_loads, filter_body_loads.
  set (g := latest_store _) in *.
  rewrite length_fmap.
  split; [reflexivity |]. split.
  - intros Hn.
    destruct (filter_priming_period garbage inputs (rel_deadline r) g Hn)
      as (_ & _ & Hf & _ & Hd & Ha).
    done.
  - intros Hn. apply filter_primed_period; [done | done |].
    apply Forall_app. split.
    + apply reader_inputs_ok; [apply zero_position_ok | exact Hs].
    + apply Forall_singleton. rewrite <- Hcell.
      apply run_cell_ok; [apply zero_position_ok | exact Hs].
Qed.

Lemma C1_average_is_mean_of_last_ten_loads_witness :
  length scenario_garbage = 10%nat
  /\ sensors_ok scenario_before_eleventh_load
  /\ rel_task (filter_release 1) = TASK_ACC_FILTER
  /\ displayed_average
       (period (filter_release 1)
          (run scenario_garbage scenario_before_eleventh_load).1).2
     = Some (17, 18, 19).
Proof.
  assert (Hs : sensors_ok scenario_before_eleventh_load).
  { unfold sensors_ok. apply (bool_decide_unpack _). vm_compute. exact I. }
  split; [reflexivity |]. split; [exact Hs |]. split; [reflexivity |].
  refine (proj1 (proj2 (proj2
            (C1_average_is_mean_of_last_ten_loads scenario_garbage
               scenario_before_eleventh_load (filter_release 1)
               eq_refl Hs eq_refl)) _)).
  vm_compute. lia.
Defined.

(** C1 as stated fails in two ways.  At the priming iteration: after
    ten periods of the scenario the filter task has raised its flag and
    its array holds the ten samples, whose truncated mean is
    (14,15,16); but no iteration so far has shown an average, and the
    averages are still (0,0,0).  And the array holds the last ten
    values loaded, which need not be the last ten values stored: when
    two stores fall between two loads the average shown, (20,21,22),
    is not the mean (23,24,25) of the last ten stored values. *)
Lemma C1_priming_period_counterexample :
  (length (events_of TASK_ACC_FILTER (scenario_schedule 10)
             (run scenario_garbage (scenario_schedule 10)).2) = 10%nat
   /\ task_acc_filter_code.sampled_ten_times
        (filter_locals (run scenario_garbage (scenario_schedule 10)).1) = true
   /\ task_acc_filter_code.acc_array
        (filter_locals (run scenario_garbage (scenario_schedule 10)).1)
      = map scenario_sample (seq 0 10)
   /\ mean10 (map scenario_sample (seq 0 10)) = (14, 15, 16)
   /\ omap displayed_average
        (events_of TASK_ACC_FILTER (scenario_schedule 10)
           (run scenario_garbage (scenario_schedule 10)).2) = []
   /\ filter_averages
        (filter_locals (run scenario_garbage (scenario_schedule 10)).1)
      = (0, 0, 0)
   /\ filter_averages
        (filter_locals (run scenario_garbage (scenario_schedule 10)).1)
      <> mean10 (task_acc_filter_code.acc_array
                   (filter_locals
                      (run scenario_garbage (scenario_schedule 10)).1)))
  /\ (last
        (omap displayed_average
           (events_of TASK_ACC_FILTER scenario_two_stores_between_loads
              (run scenario_garbage scenario_two_stores_between_loads).2))
      = Some (20, 21, 22)
      /\ mean10
           (last_n 10
              (stores
                 (concat
                    (run scenario_garbage
                       scenario_two_stores_between_loads).2)))
         = (23, 24, 25)
      /\ (20, 21, 22) <> (23, 24, 25)).
Proof.
  repeat split; try (vm_compute; reflexivity); vm_compute; discriminate.
Qed.

(** ** Before priming: nothing is averaged *)

Lemma filter_unprimed_log (garbage : list position_t)
    (inputs : list (Z * position_t)) :
  (length inputs <= 10)%nat ->
  Forall (fun ev => displayed_average ev = None
                    /\ Forall (fun e => is_int_print e = false) ev)
         (filter_run garbage inputs).2.
Proof.
  induction inputs as [| [d g] inputs IH] using rev_ind; intros Hn;
    [constructor |].
  rewrite length_app in Hn. simpl in Hn.
  rewrite run_loop_filter_snoc. cbv zeta. cbn [fst snd].
  apply Forall_app. split; [apply IH; lia |].
  apply Forall_singleton.
  destruct (filter_run_cursor garbage inputs) as (_ & Hf & _).
  rewrite bool_decide_eq_false_2 in Hf by lia.
  destruct (filter_body_events_priming d g _ Hf) as (-> & _).
  destruct (no_int_print_priming d g
              (task_acc_filter_code.counter (filter_run garbage inputs).1))
    as [H1 H2].
  split; assumption.
Qed.

Lemma first_average_none (log : list (list event)) :
  Forall (fun ev => displayed_average ev = None) log ->
  omap displayed_average log = [].
Proof.
  induction 1 as [| ev log Hev _ IH]; [reflexivity |].
  simpl. by rewrite Hev.
Qed.

Lemma first_average_snoc (log : list (list event)) (ev : list event) :
  Forall (fun ev => displayed_average ev = None) log ->
  first_average (log ++ [ev]) = displayed_average ev.
Proof.
  intros H. unfold first_average.
  rewrite omap_app, (first_average_none _ H). simpl.
  by destruct (displayed_average ev).
Qed.

Lemma scenario_inputs_ten (deadline : nat -> Z) :
  reader_inputs TASK_ACC_FILTER (store_then_load deadline scenario_sample 10)
    zero_position
  = scenario_inputs deadline.
Proof. reflexivity. Qed.

Lemma scenario_inputs_eleven (deadline : nat -> Z) (p : position_t) :
  reader_inputs TASK_ACC_FILTER
    (store_then_load deadline scenario_sample 10
       ++ [mk_release TASK_ACC (deadline 20%nat) p;
           filter_release (deadline 21%nat)])
    zero_position
  = scenario_inputs deadline ++ [(deadline 21%nat, p)].
Proof. reflexivity. Qed.

Lemma scenario_inputs_ok (deadline : nat -> Z) :
  Forall sample_ok (scenario_inputs deadline).*2.
Proof. apply (bool_decide_unpack _). vm_compute. exact I. Qed.

Lemma events_of_filter (garbage : list position_t) (schedule : list release) :
  events_of TASK_ACC_FILTER schedule (run garbage schedule).2
  = (filter_run garbage
       (reader_inputs TASK_ACC_FILTER schedule zero_position)).2.
Proof.
  unfold run. by destruct (run_filter_projection schedule (boot garbage)).
Qed.

(** ** C2 *)

(** C2, as amended.  When the sampling task stores (1,2,3), ...,
    (28,29,30) and the filter task loads each of them in turn, with any
    deadline values and any initial array content, the filter task
    shows no average during those ten periods.  Its first average
    appears in its eleventh iteration and is the truncated mean of the
    second to tenth samples together with the eleventh value [p] it
    loads: ((144 + x p)/10, (153 + y p)/10, (162 + z p)/10). *)
Theorem C2_first_average_is_one_period_late
    (garbage : list position_t) (deadline : nat -> Z) (p : position_t) :
  length garbage = 10%nat ->
  sample_ok p ->
  let ten := store_then_load deadline scenario_sample 10 in
  let eleven :=
    ten ++ [mk_release TASK_ACC (deadline 20%nat) p;
            filter_release (deadline 21%nat)] in
  first_average (events_of TASK_ACC_FILTER ten (run garbage ten).2) = None
  /\ first_average (events_of TASK_ACC_FILTER eleven (run garbage eleven).2)
     = Some (mean10 (map scenario_sample (seq 1 9) ++ [p]))
  /\ mean10 (map scenario_sample (seq 1 9) ++ [p])
     = (Z.quot (144 + x p) 10, Z.quot (153 + y p) 10, Z.quot (162 + z p) 10).
Proof.
  intros Hg Hp. cbv zeta.
  assert (Hnone : Forall (fun ev => displayed_average ev = None)
                    (filter_run garbage (scenario_inputs deadline)).2).
  { eapply Forall_impl; [apply filter_unprimed_log; simpl; lia |].
    by intros ev [H _]. }
  split; [| split].
  - rewrite events_of_filter, scenario_inputs_ten.
    unfold first_average. by rewrite first_average_none.
  - rewrite events_of_filter, scenario_inputs_eleven.
    rewrite run_loop_filter_snoc. cbv zeta. cbn [fst snd].
    rewrite first_average_snoc by exact Hnone.
    assert (Hok : Forall sample_ok ((scenario_inputs deadline).*2 ++ [p])).
    { apply Forall_app. split; [apply scenario_inputs_ok |].
      by apply Forall_singleton. }
    destruct (filter_primed_period garbage (scenario_inputs deadline)
                (deadline 21%nat) p Hg ltac:(simpl; lia) Hok) as (-> & _).
    reflexivity.
  - unfold mean10, sum_x, sum_y, sum_z. simpl.
    f_equal; [f_equal |]; f_equal; lia.
Qed.

Lemma C2_first_average_is_one_period_late_witness :
  length scenario_garbage = 10%nat
  /\ sample_ok (scenario_sample 10)
  /\ first_average
       (events_of TASK_ACC_FILTER
          (store_then_load (fun _ => 0) scenario_sample 10
             ++ [mk_release TASK_ACC 0 (scenario_sample 10);
                 filter_release 0])
          (run scenario_garbage
             (store_then_load (fun _ => 0) scenario_sample 10
                ++ [mk_release TASK_ACC 0 (scenario_sample 10);
                    filter_release 0])).2)
     = Some (17, 18, 19).
Proof.
  assert (Hp : sample_ok (scenario_sample 10)).
  { apply (bool_decide_unpack _). vm_compute. exact I. }
  split; [reflexivity |]. split; [exact Hp |].
  exact (proj1 (proj2
           (C2_first_average_is_one_period_late scenario_garbage
              (fun _ => 0) (scenario_sample 10) eq_refl Hp))).
Defined.

(** C2 as stated fails.  With the ten samples stored and loaded in turn
    the filter task has shown no average at all; its first average
    comes one period later and is (17,18,19), whether the sampling task
    has stored an eleventh sample (31,32,33) by then or the cell still
    holds (28,29,30). *)
Lemma C2_first_average_counterexample :
  first_average
    (events_of TASK_ACC_FILTER (scenario_schedule 10)
       (run scenario_garbage (scenario_schedule 10)).2) = None
  /\ first_average
       (events_of TASK_ACC_FILTER (scenario_schedule 11)
          (run scenario_garbage (scenario_schedule 11)).2)
     = Some (17, 18, 19)
  /\ first_average
       (events_of TASK_ACC_FILTER (scenario_schedule 10 ++ [filter_release 0])
          (run scenario_garbage
             (scenario_schedule 10 ++ [filter_release 0])).2)
     = Some (17, 18, 19)
  /\ (17, 18, 19) <> (14, 15, 16).
Proof.
  repeat split; try (vm_compute; reflexivity). discriminate.
Qed.

(** ** C3 *)

Lemma occurrences_app (e : event) (l1 l2 : list event) :
  occurrences e (l1 ++ l2) = (occurrences e l1 + occurrences e l2)%nat.
Proof. unfold occurrences. by rewrite filter_app, length_app. Qed.

Lemma filter_head_no_clear (d : Z) (g : position_t) (a b c e : Z) :
  occurrences (ClearScreenRange a b c e) (filter_head d g) = 0%nat.
Proof.
  unfold filter_head, report_deadline.
  by destruct (deadline_missed d).
Qed.

(** ** clear_screen_range *)

(** The pixels written are exactly those of the rectangle, both bounds
    included, and all are written black. *)
Lemma clear_screen_range_spec (start_x start_y end_x end_y px py : Z)
    (c : colour) :
  WritePixel px py c ∈ clear_screen_range start_x start_y end_x end_y
  <-> c = Col_Black /\ start_x <= px <= end_x /\ start_y <= py <= end_y.
Proof.
  unfold clear_screen_range.
  rewrite list_elem_of_In, in_flat_map. split.
  - intros (col & Hcol & Hin).
    apply in_map_iff in Hcol as (i & <- & Hi).
    apply in_map_iff in Hin as (row & Heq & Hrow).
    apply in_map_iff in Hrow as (j & <- & Hj).
    apply in_seq in Hi, Hj. injection Heq as <- <- <-.
    repeat split; try reflexivity; lia.
  - intros (-> & Hx & Hy). exists px. split.
    + apply in_map_iff. exists (Z.to_nat (px - start_x)).
      split; [lia |]. apply in_seq. lia.
    + apply in_map_iff. exists py. split; [reflexivity |].
      apply in_map_iff. exists (Z.to_nat (py - start_y)).
      split; [lia |]. apply in_seq. lia.
Qed.

(** The rectangle the filter task clears when it raises its flag
    contains the positions at which it later prints the averages and
    the position of its "sampling..." text. *)
Lemma average_region_cleared :
  Forall (fun '(px, py) =>
            WritePixel px py Col_Black ∈ clear_screen_range 170 0 319 110)
         [(230, 50); (230, 60); (230, 70); (200, 65)].
Proof.
  repeat constructor; apply clear_screen_range_spec; repeat split; lia.
Qed.

Lemma NoDup_flat_map {A B : Type} (f : A -> list B) (l : list A) :
  NoDup l ->
  (forall a, a ∈ l -> NoDup (f a)) ->
  (forall a b v, a ∈ l -> b ∈ l -> v ∈ f a -> v ∈ f b -> a = b) ->
  NoDup (flat_map f l).
Proof.
  induction 1 as [| a l Ha Hl IH]; intros Hf Hab; [constructor |].
  simpl. apply NoDup_app. split; [| split].
  - apply Hf. apply list_elem_of_here.
  - intros v Hv Hin.
    apply list_elem_of_In, in_flat_map in Hin as (b & Hb & Hvb).
    apply list_elem_of_In in Hb, Hvb.
    assert (a = b) as <-.
    { apply (Hab a b v); [apply list_elem_of_here | | done | done].
      by apply list_elem_of_further. }
    contradiction.
  - apply IH.
    + intros b Hb. apply Hf. by apply list_elem_of_further.
    + intros b c v Hb Hc. apply Hab; by apply list_elem_of_further.
Qed.

Lemma NoDup_offsets (start : Z) (n : nat) :
  NoDup (map (fun i => start + Z.of_nat i) (seq 0 n)).
Proof.
  apply (NoDup_fmap_2_strong (fun i => start + Z.of_nat i)).
  - intros i j _ _ H. lia.
  - apply NoDup_seq.
Qed.

Lemma occurrences_absent (e : event) (l : list event) :
  e ∉ l -> occurrences e l = 0%nat.
Proof.
  unfold occurrences. induction l as [| a l IH]; intros Hn; [done |].
  apply not_elem_of_cons in Hn as [Hne Hn].
  rewrite filter_cons_False by congruence. by apply IH.
Qed.

Lemma occurrences_NoDup (e : event) (l : list event) :
  NoDup l -> e ∈ l -> occurrences e l = 1%nat.
Proof.
  induction 1 as [| a l Ha Hl IH]; intros Hin.
  - by apply elem_of_nil in Hin.
  - destruct (decide (a = e)) as [-> | Hne].
    + unfold occurrences. rewrite filter_cons_True by done. simpl.
      f_equal. by apply occurrences_absent.
    + apply elem_of_cons in Hin as [-> | Hin]; [done |].
      unfold occurrences. rewrite filter_cons_False by done.
      by apply IH.
Qed.

(** ** Pixel writes of an iteration *)

Lemma clear_screen_range_NoDup (start_x start_y end_x end_y : Z) :
  NoDup (clear_screen_range start_x start_y end_x end_y).
Proof.
  unfold clear_screen_range. apply NoDup_flat_map.
  - apply NoDup_offsets.
  - intros col _. apply NoDup_fmap_2_strong; [| apply NoDup_offsets].
    intros r1 r2 _ _ H. by injection H.
  - intros a b v _ _ Ha Hb.
    apply list_elem_of_fmap in Ha as (r1 & -> & _).
    apply list_elem_of_fmap in Hb as (r2 & H & _). by injection H.
Qed.

(** A call of [clear_screen_range] writes each pixel of its rectangle
    once, black, and writes no other pixel. *)
Lemma clear_screen_range_occurrences
    (start_x start_y end_x end_y px py : Z) (c : colour) :
  occurrences (WritePixel px py c)
    (clear_screen_range start_x start_y end_x end_y)
  = if decide (c = Col_Black
               /\ start_x <= px <= end_x /\ start_y <= py <= end_y)
    then 1%nat else 0%nat.
Proof.
  case_decide as Hin.
  - apply occurrences_NoDup; [apply clear_screen_range_NoDup |].
    by apply clear_screen_range_spec.
  - apply occurrences_absent. by rewrite clear_screen_range_spec.
Qed.

Lemma expand_calls_app (l1 l2 : list event) :
  expand_calls (l1 ++ l2) = expand_calls l1 ++ expand_calls l2.
Proof. unfold expand_calls. apply flat_map_app. Qed.

Lemma expand_calls_clear (start_x start_y end_x end_y : Z) :
  expand_calls [ClearScreenRange start_x start_y end_x end_y]
  = clear_screen_range start_x start_y end_x end_y.
Proof. unfold expand_calls. simpl. apply app_nil_r. Qed.

Lemma clear_calls_app (l1 l2 : list event) :
  clear_calls (l1 ++ l2) = clear_calls l1 ++ clear_calls l2.
Proof. unfold clear_calls. apply omap_app. Qed.

(** Events that are all calls into the drivers or the kernel: nothing
    to expand, no clear, no pixel written. *)
Lemma driver_calls_plain (ev : list event) :
  forallb is_driver_call ev = true ->
  expand_calls ev = ev
  /\ clear_calls ev = []
  /\ forall px py c, occurrences (WritePixel px py c) ev = 0%nat.
Proof.
  induction ev as [| e ev IH]; intros H; [done |].
  simpl in H. apply andb_prop in H as [He Hev].
  destruct (IH Hev) as (IH1 & IH2 & IH3).
  split; [| split].
  - destruct e; try discriminate He; simpl; f_equal; exact IH1.
  - destruct e; try discriminate He; exact IH2.
  - intros px py c. unfold occurrences.
    rewrite filter_cons_False by (by destruct e). apply IH3.
Qed.

Lemma filter_head_driver_calls (d : Z) (g : position_t) :
  forallb is_driver_call (filter_head d g) = true.
Proof. unfold filter_head, report_deadline. by destruct (deadline_missed d). Qed.

(** What one iteration of the filter task clears, in terms of the
    state it starts from. *)
Lemma filter_iteration_screen (d : Z) (g : position_t)
    (s : task_acc_filter_code.locals) :
  let ev := (task_acc_filter_code.loop_body d g s).2 in
  let clearing :=
    negb (task_acc_filter_code.sampled_ten_times s)
    && (task_acc_filter_code.counter s =? 9) in
  clear_calls ev = (if clearing then [(170, 0, 319, 110)] else [])
  /\ forall px py c,
       occurrences (WritePixel px py c) (expand_calls ev)
       = if clearing
         then occurrences (WritePixel px py c)
                (clear_screen_range 170 0 319 110)
         else 0%nat.
Proof.
  cbv zeta.
  destruct (driver_calls_plain _ (filter_head_driver_calls d g))
    as (Hx & Hc & Ho).
  destruct (task_acc_filter_code.sampled_ten_times s) eqn:E.
  - destruct (filter_body_events_primed d g s E) as (-> & _).
    cbn [negb andb].
    rewrite clear_calls_app, expand_calls_app, Hx, Hc.
    split; [reflexivity |]. intros px py c.
    by rewrite occurrences_app, Ho.
  - destruct (filter_body_events_priming d g s E) as (-> & _).
    cbn [negb andb].
    rewrite clear_calls_app, expand_calls_app, Hx, Hc.
    destruct (task_acc_filter_code.counter s =? 9).
    + rewrite expand_calls_clear. split; [reflexivity |].
      intros px py c. by rewrite occurrences_app, Ho.
    + split; [reflexivity |]. intros px py c.
      by rewrite occurrences_app, Ho.
Qed.

Lemma priming_iteration (k : nat) :
  negb (bool_decide (10 <= k)%nat) && (Z.of_nat (k mod 10) =? 9)
  = bool_decide (k = 9%nat).
Proof.
  pose proof (Nat.mod_small k 10) as Hsmall.
  destruct (Z.eqb_spec (Z.of_nat (k mod 10)) 9);
    repeat case_bool_decide; simpl; try reflexivity; lia.
Qed.

(** C3.  In every run of the filter task, iteration [k] (counted from
    0) turns [sampled_ten_times] from false to true exactly when
    [k = 9]: the iteration at which [counter] is 9 and about to wrap to
    0, that is the tenth store into the array.  Once true, the flag
    stays true.  In that iteration [clear_screen_range] is called once,
    with the arguments (170, 0, 319, 110), and by the body of
    [clear_screen_range] every pixel of that rectangle is written black
    exactly once, among them the positions where the averages are
    printed later; in every other iteration [clear_screen_range] is not
    called at all, so that it writes no pixel. *)
Theorem C3_primed_flag_raised_once
    (garbage : list position_t) (inputs : list (Z * position_t))
    (k : nat) (ev : list event) :
  (filter_run garbage inputs).2 !! k = Some ev ->
  let before := (filter_run garbage (take k inputs)).1 in
  let after := (filter_run garbage (take (S k) inputs)).1 in
  (task_acc_filter_code.sampled_ten_times before = false
   /\ task_acc_filter_code.sampled_ten_times after = true <-> k = 9%nat)
  /\ (task_acc_filter_code.sampled_ten_times before = true ->
      task_acc_filter_code.sampled_ten_times after = true)
  /\ (k = 9%nat ->
      task_acc_filter_code.counter before = 9
      /\ task_acc_filter_code.counter after = 0)
  /\ occurrences (ClearScreenRange 170 0 319 110) ev
     = (if decide (k = 9%nat) then 1 else 0)%nat
  /\ clear_calls ev
     = (if decide (k = 9%nat) then [(170, 0, 319, 110)] else [])
  /\ (forall px py c,
        occurrences (WritePixel px py c) (expand_calls ev)
        = if decide (k = 9%nat /\ c = Col_Black
                     /\ 170 <= px <= 319 /\ 0 <= py <= 110)
          then 1%nat else 0%nat)
  /\ (k = 9%nat ->
      Forall (fun '(px, py) =>
                occurrences (WritePixel px py Col_Black) (expand_calls ev)
                = 1%nat)
             [(230, 50); (230, 60); (230, 70)]).
Proof.
  intros Hev. cbv zeta.
  assert (Hk : (k < length inputs)%nat).
  { apply lookup_lt_Some in Hev. unfold filter_run in Hev.
    by rewrite run_loop_length in Hev. }
  destruct (lookup_lt_is_Some_2 inputs k Hk) as [[d g] Hi].
  destruct (run_loop_lookup
              (fun i => task_acc_filter_code.loop_body i.1 i.2) inputs
              (task_acc_filter_code.init garbage) k (d, g) Hi) as [Hlog _].
  fold (filter_run garbage inputs) in Hlog.
  fold (filter_run garbage (take k inputs)) in Hlog.
  rewrite Hev in Hlog. injection Hlog as ->. cbn [fst snd].
  destruct (filter_run_cursor garbage (take k inputs)) as (Hc & Hf & _).
  destruct (filter_run_cursor garbage (take (S k) inputs)) as (Hc' & Hf' & _).
  rewrite length_take, Nat.min_l in Hc, Hf, Hc', Hf' by lia.
  destruct (filter_iteration_screen d g (filter_run garbage (take k inputs)).1)
    as [Hcalls Hpix].
  cbv zeta in Hcalls, Hpix.
  rewrite Hf, Hc, priming_iteration in Hcalls, Hpix.
  assert (Hpixels : forall px py c,
            occurrences (WritePixel px py c)
              (expand_calls
                 (task_acc_filter_code.loop_body d g
                    (filter_run garbage (take k inputs)).1).2)
            = if decide (k = 9%nat /\ c = Col_Black
                         /\ 170 <= px <= 319 /\ 0 <= py <= 110)
              then 1%nat else 0%nat).
  { intros px py c. rewrite Hpix, clear_screen_range_occurrences.
    repeat case_bool_decide; repeat case_decide;
      try reflexivity; exfalso; tauto. }
  rewrite Hc, Hc'.
  pose proof (Nat.mod_small k 10) as Hsmall.
  pose proof (Nat.mod_upper_bound k 10 ltac:(lia)) as Hup.
  split; [| split; [| split; [| split; [| split; [| split]]]]].
  - rewrite Hf, Hf'.
    repeat case_bool_decide; split; (intros [? ?] || intros ?);
      try split; try done; lia.
  - rewrite Hf, Hf'. repeat case_bool_decide; try done; lia.
  - intros ->. done.
  - destruct (decide (10 <= k)%nat) as [Hge | Hlt].
    + rewrite bool_decide_eq_true_2 in Hf by lia.
      destruct (filter_body_events_primed d g _ Hf) as (-> & _).
      rewrite occurrences_app, filter_head_no_clear.
      rewrite decide_False by lia. reflexivity.
    + rewrite bool_decide_eq_false_2 in Hf by lia.
      destruct (filter_body_events_priming d g _ Hf) as (-> & _).
      rewrite occurrences_app, filter_head_no_clear, Hc.
      rewrite Hsmall by lia.
      destruct (decide (k = 9%nat)) as [-> | Hne]; [reflexivity |].
      destruct (Z.eqb_spec (Z.of_nat k) 9); [lia | reflexivity].
  - rewrite Hcalls. by case_bool_decide; case_decide.
  - exact Hpixels.
  - intros ->. repeat constructor; rewrite Hpixels;
      apply decide_True; repeat split; lia.
Qed.

Lemma C3_primed_flag_raised_once_witness :
  (filter_run scenario_garbage (scenario_inputs (fun _ => 0))).2 !! 9%nat
  = Some (filter_head 0 (scenario_sample 9)
            ++ [ClearScreenRange 170 0 319 110])
  /\ clear_calls
       (filter_head 0 (scenario_sample 9) ++ [ClearScreenRange 170 0 319 110])
     = [(170, 0, 319, 110)].
Proof.
  split; [reflexivity |].
  exact (proj1 (proj2 (proj2 (proj2 (proj2
           (C3_primed_flag_raised_once scenario_garbage
              (scenario_inputs (fun _ => 0)) 9
              (filter_head 0 (scenario_sample 9)
                 ++ [ClearScreenRange 170 0 319 110])
              eq_refl)))))).
Defined.

(** ** C4 *)

Lemma filter_sampling_log (garbage : list position_t)
    (inputs : list (Z * position_t)) :
  (length inputs < 10)%nat ->
  Forall (fun ev => TtyPrint 200 65 "sampling..." Col_White Col_Black ∈ ev)
         (filter_run garbage inputs).2.
Proof.
  induction inputs as [| [d g] inputs IH] using rev_ind; intros Hn;
    [constructor |].
  rewrite length_app in Hn. simpl in Hn.
  rewrite run_loop_filter_snoc. cbv zeta. cbn [fst snd].
  apply Forall_app. split; [apply IH; lia |].
  apply Forall_singleton.
  destruct (filter_run_cursor garbage inputs) as (Hc & Hf & _).
  rewrite bool_decide_eq_false_2 in Hf by lia.
  destruct (filter_body_events_priming d g _ Hf) as (-> & _).
  rewrite Hc, Nat.mod_small by lia.
  destruct (Z.eqb_spec (Z.of_nat (length inputs)) 9); [lia |].
  apply elem_of_app. right. apply list_elem_of_singleton. reflexivity.
Qed.

(** C4.  In every run of the filter task of fewer than ten iterations,
    whatever the deadline values and the loaded samples: every
    iteration happens; iteration [k] starts with the cursor at [k]
    (0 to 8); none shows an average (no [int_print] call at all is
    made); each prints "sampling..."; the averages are still 0 and the
    flag is still false at the end. *)
Theorem C4_no_average_before_priming
    (garbage : list position_t) (inputs : list (Z * position_t)) :
  (length inputs < 10)%nat ->
  let result := filter_run garbage inputs in
  length result.2 = length inputs
  /\ first_average result.2 = None
  /\ Forall (fun ev =>
               displayed_average ev = None
               /\ Forall (fun e => is_int_print e = false) ev
               /\ TtyPrint 200 65 "sampling..." Col_White Col_Black ∈ ev)
            result.2
  /\ (forall k, (k < length inputs)%nat ->
        task_acc_filter_code.counter (filter_run garbage (take k inputs)).1
        = Z.of_nat k)
  /\ filter_averages result.1 = (0, 0, 0)
  /\ task_acc_filter_code.sampled_ten_times result.1 = false.
Proof.
  intros Hn. cbv zeta.
  pose proof (filter_unprimed_log garbage inputs ltac:(lia)) as Hlog.
  pose proof (filter_sampling_log garbage inputs Hn) as Hsamp.
  destruct (filter_run_cursor garbage inputs) as (_ & Hf & Havg).
  split; [apply run_loop_length |].
  split.
  { unfold first_average. rewrite first_average_none; [reflexivity |].
    eapply Forall_impl; [exact Hlog |]. by intros ev [H _]. }
  split.
  { rewrite Forall_forall in Hlog, Hsamp. apply Forall_forall.
    intros ev Hev. destruct (Hlog ev Hev). auto. }
  split.
  { intros k Hk.
    destruct (filter_run_cursor garbage (take k inputs)) as (Hc & _).
    rewrite length_take, Nat.min_l in Hc by lia.
    rewrite Hc, Nat.mod_small by lia. reflexivity. }
  split.
  { destruct (Havg ltac:(lia)) as (Hx & Hy & Hz).
    unfold filter_averages. by rewrite Hx, Hy, Hz. }
  rewrite Hf. apply bool_decide_eq_false_2. lia.
Qed.

Lemma C4_no_average_before_priming_witness :
  (length (take 9 (scenario_inputs (fun _ => 1%Z))) < 10)%nat
  /\ first_average
       (filter_run scenario_garbage (take 9 (scenario_inputs (fun _ => 1%Z)))).2
     = None.
Proof.
  assert (Hn : (length (take 9 (scenario_inputs (fun _ => 1%Z))) < 10)%nat)
    by (vm_compute; lia).
  split; [exact Hn |].
  exact (proj1 (proj2
           (C4_no_average_before_priming scenario_garbage
              (take 9 (scenario_inputs (fun _ => 1%Z))) Hn))).
Defined.

(** ** The plotting task *)

Lemma run_loop_plot_snoc (inputs : list (Z * position_t)) (d : Z)
    (g : position_t) :
  plot_run (inputs ++ [(d, g)])
  = let r := plot_run inputs in
    let b := task_plot_code.loop_body d g r.1 in
    (b.1, r.2 ++ [b.2]).
Proof. unfold plot_run. by rewrite run_loop_snoc. Qed.

Lemma plot_run_lookup (inputs : list (Z * position_t)) (k : nat) (d : Z)
    (g : position_t) :
  inputs !! k = Some (d, g) ->
  (plot_run inputs).2 !! k
  = Some (task_plot_code.loop_body d g (plot_run (take k inputs)).1).2
  /\ (plot_run (take (S k) inputs)).1
     = (task_plot_code.loop_body d g (plot_run (take k inputs)).1).1.
Proof.
  intros Hi.
  exact (run_loop_lookup (fun i => task_plot_code.loop_body i.1 i.2) inputs
           task_plot_code.init k (d, g) Hi).
Qed.

Lemma plot_run_cursor (inputs : list (Z * position_t)) :
  task_plot_code.counter (plot_run inputs).1
  = Z.of_nat (length inputs mod 5).
Proof.
  induction inputs as [| [d g] inputs IH] using rev_ind; [done |].
  rewrite run_loop_plot_snoc. cbv zeta. cbn [fst snd].
  rewrite length_app. simpl length.
  unfold task_plot_code.loop_body. cbn [fst task_plot_code.counter].
  rewrite IH.
  pose proof (Nat.mod_upper_bound (length inputs) 5 ltac:(lia)).
  rewrite int_add_exact by (unfold in_int, INT_MIN, INT_MAX; lia).
  rewrite int_mod_exact by (unfold in_int, INT_MIN, INT_MAX; lia).
  exact (succ_mod_Z 5 (length inputs) ltac:(lia)).
Qed.

Lemma plot_body_clears (d : Z) (g : position_t) (s : task_plot_code.locals) :
  occurrences (ClearScreenRange 170 125 319 239)
    (task_plot_code.loop_body d g s).2
  = if decide (task_plot_code.counter s = 0) then 1%nat else 0%nat.
Proof.
  unfold task_plot_code.loop_body, report_deadline. cbn [snd].
  destruct (Z.eqb_spec (task_plot_code.counter s) 0) as [-> | Hne].
  - by destruct (deadline_missed d).
  - rewrite decide_False by done. by destruct (deadline_missed d).
Qed.

Lemma plot_body_circles (d : Z) (g : position_t) (s : task_plot_code.locals) :
  filled_circles (task_plot_code.loop_body d g s).2
  = [(task_plot_code.point_x (task_plot_code.counter s),
      task_plot_code.point_y g, 1, Col_Green)].
Proof.
  unfold task_plot_code.loop_body, report_deadline. cbn [snd].
  by destruct (deadline_missed d), (task_plot_code.counter s =? 0).
Qed.

(** [z / 8] for a 16-bit [z]. *)
Lemma quot8_bounds (v : Z) :
  in_int16 v ->
  -4096 <= Z.quot v 8 <= 4095
  /\ (8 <= v -> 0 < Z.quot v 8)
  /\ (v <= -8 -> Z.quot v 8 < 0)
  /\ (-8 < v < 8 -> Z.quot v 8 = 0).
Proof.
  unfold in_int16, INT16_MIN, INT16_MAX. intros Hv.
  pose proof (Z.quot_rem' v 8) as Hqr.
  destruct (Z.le_gt_cases 0 v) as [Hpos | Hneg].
  - pose proof (Z.rem_bound_pos v 8 Hpos ltac:(lia)). lia.
  - pose proof (Z.rem_bound_pos (- v) 8 ltac:(lia) ltac:(lia)) as Hb.
    rewrite Z.rem_opp_l in Hb by lia. lia.
Qed.

Lemma point_y_exact (g : position_t) :
  in_int16 (z g) -> task_plot_code.point_y g = 180 - Z.quot (z g) 8.
Proof.
  intros Hz. destruct (quot8_bounds _ Hz) as (Hq & _).
  unfold task_plot_code.point_y.
  unfold in_int16, INT16_MIN, INT16_MAX in Hz.
  rewrite int_div_exact by (unfold in_int, INT_MIN, INT_MAX; lia).
  rewrite int_mul_exact by (unfold in_int, INT_MIN, INT_MAX; lia).
  rewrite int_add_exact by (unfold in_int, INT_MIN, INT_MAX; lia).
  lia.
Qed.

Lemma point_x_exact (c : Z) :
  0 <= c <= 4 -> task_plot_code.point_x c = 205 + 5 * c.
Proof.
  intros Hc. unfold task_plot_code.point_x.
  rewrite int_mul_exact by (unfold in_int, INT_MIN, INT_MAX; lia).
  rewrite int_add_exact by (unfold in_int, INT_MIN, INT_MAX; lia).
  reflexivity.
Qed.

(** ** C5 *)

(** What one iteration of the plotting task clears, in terms of the
    cursor it starts with. *)
Lemma plot_iteration_screen (d : Z) (g : position_t)
    (s : task_plot_code.locals) :
  let ev := (task_plot_code.loop_body d g s).2 in
  clear_calls ev
  = (if task_plot_code.counter s =? 0 then [(170, 125, 319, 239)] else [])
  /\ forall px py c,
       occurrences (WritePixel px py c) (expand_calls ev)
       = if task_plot_code.counter s =? 0
         then occurrences (WritePixel px py c)
                (clear_screen_range 170 125 319 239)
         else 0%nat.
Proof.
  cbv zeta. unfold task_plot_code.loop_body. cbn [snd].
  set (rest := [TtyPrint 200 130 "task_acc_filter" Col_White Col_Black;
                SemTake SEM_SHARED_DATA; LoadGlobal g;
                SemRelease SEM_SHARED_DATA;
                TtyPrint 190 180 "0" Col_White Col_Black;
                DrawHline 200 180 60 Col_Cyan;
                DrawFilledCircle
                  (task_plot_code.point_x (task_plot_code.counter s))
                  (task_plot_code.point_y g) 1 Col_Green]).
  destruct (driver_calls_plain
              (report_deadline d task_plot_code.miss_text)
              ltac:(unfold report_deadline; by destruct (deadline_missed d)))
    as (Hx1 & Hc1 & Ho1).
  destruct (driver_calls_plain rest eq_refl) as (Hx2 & Hc2 & Ho2).
  rewrite !clear_calls_app, !expand_calls_app, Hx1, Hc1, Hx2, Hc2.
  destruct (task_plot_code.counter s =? 0).
  - rewrite expand_calls_clear. split; [reflexivity |].
    intros px py c. rewrite !occurrences_app, Ho1, Ho2. lia.
  - split; [reflexivity |].
    intros px py c. by rewrite !occurrences_app, Ho1, Ho2.
Qed.

(** C5.  In every run of the plotting task, of any length and with any
    deadline values and samples, iteration [k] (counted from 0) starts
    with [counter = k mod 5] and ends with [counter] advanced by one
    modulo 5; [counter] is 0 exactly in the first iteration and in
    those that follow one which started with [counter = 4].  If
    [counter] is 0 the iteration calls [clear_screen_range] once, with
    the arguments (170, 125, 319, 239), and by the body of
    [clear_screen_range] every pixel of that rectangle is written black
    exactly once; otherwise [clear_screen_range] is not called at all,
    so that it writes no pixel. *)
Theorem C5_plot_cursor_cycles_and_clears
    (inputs : list (Z * position_t)) (k : nat) (ev : list event) :
  (plot_run inputs).2 !! k = Some ev ->
  let before := (plot_run (take k inputs)).1 in
  let after := (plot_run (take (S k) inputs)).1 in
  task_plot_code.counter before = Z.of_nat (k mod 5)
  /\ task_plot_code.counter after
     = (task_plot_code.counter before + 1) mod 5
  /\ occurrences (ClearScreenRange 170 125 319 239) ev
     = (if decide (task_plot_code.counter before = 0) then 1%nat else 0%nat)
  /\ (task_plot_code.counter before = 0 <->
      k = 0%nat
      \/ ((0 < k)%nat
          /\ task_plot_code.counter (plot_run (take (k - 1) inputs)).1 = 4))
  /\ clear_calls ev
     = (if decide (task_plot_code.counter before = 0)
        then [(170, 125, 319, 239)] else [])
  /\ (forall px py c,
        occurrences (WritePixel px py c) (expand_calls ev)
        = if decide (task_plot_code.counter before = 0 /\ c = Col_Black
                     /\ 170 <= px <= 319 /\ 125 <= py <= 239)
          then 1%nat else 0%nat).
Proof.
  intros Hev. cbv zeta.
  assert (Hk : (k < length inputs)%nat).
  { apply lookup_lt_Some in Hev. unfold plot_run in Hev.
    by rewrite run_loop_length in Hev. }
  destruct (lookup_lt_is_Some_2 inputs k Hk) as [[d g] Hi].
  destruct (plot_run_lookup inputs k d g Hi) as [Hlog _].
  assert (ev = (task_plot_code.loop_body d g (plot_run (take k inputs)).1).2)
    as -> by congruence.
  destruct (plot_iteration_screen d g (plot_run (take k inputs)).1)
    as [Hcalls Hpix].
  cbv zeta in Hcalls, Hpix.
  assert (Hscreen :
    clear_calls
      (task_plot_code.loop_body d g (plot_run (take k inputs)).1).2
    = (if decide (task_plot_code.counter (plot_run (take k inputs)).1 = 0)
       then [(170, 125, 319, 239)] else [])
    /\ forall px py c,
         occurrences (WritePixel px py c)
           (expand_calls
              (task_plot_code.loop_body d g (plot_run (take k inputs)).1).2)
         = if decide (task_plot_code.counter (plot_run (take k inputs)).1 = 0
                      /\ c = Col_Black
                      /\ 170 <= px <= 319 /\ 125 <= py <= 239)
           then 1%nat else 0%nat).
  { split.
    - rewrite Hcalls.
      destruct (Z.eqb_spec
                  (task_plot_code.counter (plot_run (take k inputs)).1) 0);
        by case_decide.
    - intros px py c. rewrite Hpix, clear_screen_range_occurrences.
      destruct (Z.eqb_spec
                  (task_plot_code.counter (plot_run (take k inputs)).1) 0);
        repeat case_decide; try reflexivity; exfalso; tauto. }
  destruct Hscreen as [Hs1 Hs2].
  split; [| split; [| split; [| split; [| split]]]];
    [| | | | exact Hs1 | exact Hs2].
  - rewrite plot_run_cursor, length_take, Nat.min_l by lia. reflexivity.
  - rewrite !plot_run_cursor, !length_take, !Nat.min_l by lia.
    pose proof (succ_mod_Z 5 k ltac:(lia)) as Hsucc.
    change (Z.of_nat 5) with 5 in Hsucc. rewrite Nat.add_1_r in Hsucc.
    by rewrite Hsucc.
  - apply plot_body_clears.
  - rewrite !plot_run_cursor, !length_take, !Nat.min_l by lia.
    destruct k as [| k]; [split; [by left | reflexivity] |].
    replace (S k - 1)%nat with k by lia.
    pose proof (succ_mod 5 k ltac:(lia)) as Hs.
    rewrite Nat.add_1_r in Hs. rewrite Hs.
    pose proof (Nat.mod_upper_bound k 5 ltac:(lia)).
    case_decide; split; intros; lia.
Qed.

Lemma C5_plot_cursor_cycles_and_clears_witness :
  (plot_run plot_scenario_inputs).2 !! 5%nat
  = Some (task_plot_code.loop_body 1 (scenario_sample 5)
            (task_plot_code.mk_locals 0)).2
  /\ task_plot_code.counter (plot_run (take 5 plot_scenario_inputs)).1 = 0
  /\ clear_calls
       (task_plot_code.loop_body 1 (scenario_sample 5)
          (task_plot_code.mk_locals 0)).2 = [(170, 125, 319, 239)].
Proof.
  split; [reflexivity |].
  pose proof (C5_plot_cursor_cycles_and_clears plot_scenario_inputs 5
                (task_plot_code.loop_body 1 (scenario_sample 5)
                   (task_plot_code.mk_locals 0)).2 eq_refl)
    as (H1 & _ & _ & _ & H5 & _).
  split; [exact H1 | exact H5].
Defined.

(** ** C6 *)

(** C6.  In every iteration of the plotting task, after any history,
    with any deadline value and any loaded sample whose fields are
    16-bit, exactly one [draw_filled_circle] call is made: at
    x = 205 + 5 * counter, where counter is the number of earlier
    iterations modulo 5, and y = 180 - z / 8 with [/] truncating toward
    zero, radius 1, green.  The [int] arithmetic does not wrap.  The
    point is above the baseline y = 180 for z >= 8, below it for
    z <= -8 and on it in between. *)
Theorem C6_plot_point
    (inputs : list (Z * position_t)) (d : Z) (g : position_t) :
  sample_ok g ->
  let s := (plot_run inputs).1 in
  let c := Z.of_nat (length inputs mod 5) in
  task_plot_code.counter s = c
  /\ filled_circles (task_plot_code.loop_body d g s).2
     = [(205 + 5 * c, 180 - Z.quot (z g) 8, 1, Col_Green)]
  /\ (8 <= z g -> 180 - Z.quot (z g) 8 < 180)
  /\ (z g <= -8 -> 180 < 180 - Z.quot (z g) 8)
  /\ (-8 < z g < 8 -> 180 - Z.quot (z g) 8 = 180).
Proof.
  intros (_ & _ & Hz). cbv zeta.
  pose proof (plot_run_cursor inputs) as Hc.
  pose proof (Nat.mod_upper_bound (length inputs) 5 ltac:(lia)) as Hlt.
  destruct (quot8_bounds _ Hz) as (_ & Hup & Hdown & Hflat).
  split; [exact Hc |].
  split.
  { rewrite plot_body_circles, Hc, point_y_exact by exact Hz.
    rewrite point_x_exact by lia. reflexivity. }
  repeat split; intros; [apply Hup in H | apply Hdown in H | apply Hflat in H];
    lia.
Qed.

Lemma C6_plot_point_witness :
  sample_ok (mk_position 0 0 (-100))
  /\ filled_circles
       (task_plot_code.loop_body 0 (mk_position 0 0 (-100))
          (plot_run plot_scenario_inputs).1).2
     = [(210, 192, 1, Col_Green)].
Proof.
  assert (Hok : sample_ok (mk_position 0 0 (-100))).
  { apply (bool_decide_unpack _). vm_compute. exact I. }
  split; [exact Hok |].
  exact (proj1 (proj2
           (C6_plot_point plot_scenario_inputs 0 (mk_position 0 0 (-100))
              Hok))).
Defined.

(** ** C10 *)

(** C10.  For every content of the filter task's array of ten samples
    whose fields are 16-bit, after each number [n] of iterations of the
    accumulation loop (0 to 10) the three [int] accumulators hold the
    exact sums of the first [n] slots, each within
    [-327680, 327670], so no [+=] wraps; and dividing the final sums by
    10 yields the truncated-toward-zero mean of the ten samples, which
    is again 16-bit. *)
Theorem C10_accumulation_does_not_overflow (arr : list position_t) :
  length arr = 10%nat ->
  Forall sample_ok arr ->
  (forall n : nat, (n <= 10)%nat ->
     task_acc_filter_code.sum_loop arr n
     = (sum_x (take n arr), sum_y (take n arr), sum_z (take n arr))
     /\ -327680 <= sum_x (take n arr) <= 327670
     /\ -327680 <= sum_y (take n arr) <= 327670
     /\ -327680 <= sum_z (take n arr) <= 327670)
  /\ (let '(sx, sy, sz) := task_acc_filter_code.sum_loop arr 10 in
      (int_div sx 10, int_div sy 10, int_div sz 10) = mean10 arr
      /\ in_int16 (int_div sx 10)
      /\ in_int16 (int_div sy 10)
      /\ in_int16 (int_div sz 10)).
Proof.
  intros Hlen Hok.
  assert (Hpart : forall n : nat, (n <= 10)%nat ->
            task_acc_filter_code.sum_loop arr n
            = (sum_x (take n arr), sum_y (take n arr), sum_z (take n arr))
            /\ -327680 <= sum_x (take n arr) <= 327670
            /\ -327680 <= sum_y (take n arr) <= 327670
            /\ -327680 <= sum_z (take n arr) <= 327670).
  { intros n Hn. split; [apply sum_loop_exact; (done || lia) |].
    pose proof (sum_bounds (take n arr) ltac:(by apply Forall_take))
      as (Bx & By & Bz).
    rewrite length_take, Nat.min_l in Bx, By, Bz by lia.
    unfold INT16_MIN, INT16_MAX in *. cbv zeta in *. lia. }
  split; [exact Hpart |].
  destruct (Hpart 10%nat ltac:(lia)) as (-> & Bx & By & Bz).
  rewrite <- Hlen, firstn_all in *.
  rewrite !int_div_exact by (unfold in_int, INT_MIN, INT_MAX; lia).
  split; [reflexivity |].
  unfold in_int16, INT16_MIN, INT16_MAX.
  pose proof (Z.quot_rem' (sum_x arr) 10).
  pose proof (Z.quot_rem' (sum_y arr) 10).
  pose proof (Z.quot_rem' (sum_z arr) 10).
  pose proof (Z.rem_bound_abs (sum_x arr) 10 ltac:(lia)).
  pose proof (Z.rem_bound_abs (sum_y arr) 10 ltac:(lia)).
  pose proof (Z.rem_bound_abs (sum_z arr) 10 ltac:(lia)).
  lia.
Qed.

Lemma C10_accumulation_does_not_overflow_witness :
  length extreme_array = 10%nat
  /\ Forall sample_ok extreme_array
  /\ task_acc_filter_code.sum_loop extreme_array 10 = (-327680, 327670, 0).
Proof.
  assert (Hok : Forall sample_ok extreme_array).
  { apply (bool_decide_unpack _). vm_compute. exact I. }
  split; [reflexivity |]. split; [exact Hok |].
  exact (proj1 (proj1
           (C10_accumulation_does_not_overflow extreme_array eq_refl Hok)
           10%nat (le_n 10))).
Defined.

(** ** Deadline reports *)

Lemma report_deadline_testbit (d : Z) (text : string) :
  report_deadline d text = if Z.testbit d 0 then [Printf text] else [].
Proof. unfold report_deadline. by rewrite deadline_missed_testbit. Qed.

Lemma filter_body_deadline (d : Z) (g : position_t)
    (s : task_acc_filter_code.locals) :
  task_acc_filter_code.loop_body d g s
  = ((task_acc_filter_code.loop_body 0 g s).1,
     report_deadline d task_acc_filter_code.miss_text
       ++ (task_acc_filter_code.loop_body 0 g s).2).
Proof.
  unfold task_acc_filter_code.loop_body.
  destruct (task_acc_filter_code.sampled_ten_times s).
  - destruct (task_acc_filter_code.sum_loop _ _) as [[sx sy] sz].
    cbn [fst snd]. by rewrite <- !app_assoc.
  - destruct (_ =? 9); cbn [fst snd]; by rewrite <- !app_assoc.
Qed.

Lemma filter_body_printfs (g : position_t) (s : task_acc_filter_code.locals) :
  printfs (task_acc_filter_code.loop_body 0 g s).2 = []
  /\ (task_acc_filter_code.loop_body 0 g s).2 <> [].
Proof.
  unfold task_acc_filter_code.loop_body.
  destruct (task_acc_filter_code.sampled_ten_times s).
  - destruct (task_acc_filter_code.sum_loop _ _) as [[sx sy] sz]. done.
  - by destruct (_ =? 9).
Qed.

(** A periodic task's iteration is its deadline report, if any,
    followed by what it does when released on time; the local
    variables and the shared cell end up the same either way. *)
Lemma period_deadline (r : release) (w : world) (text : string) :
  task_miss_text (rel_task r) = Some text ->
  let quiet := period (with_deadline r 0) w in
  period r w = (quiet.1, report_deadline (rel_deadline r) text ++ quiet.2)
  /\ printfs quiet.2 = []
  /\ quiet.2 <> [].
Proof.
  destruct r as [t d p]. unfold period, with_deadline. simpl.
  destruct t; simpl; intros [= <-].
  - done.
  - done.
  - rewrite (filter_body_deadline d).
    destruct (filter_body_printfs (global_acc_data w) (filter_locals w))
      as [H1 H2].
    destruct (task_acc_filter_code.loop_body 0 _ _) as [s ev]. done.
  - split; [reflexivity |]. split; by destruct (_ =? 0).
Qed.

Lemma printfs_app (e1 e2 : list event) :
  printfs (e1 ++ e2) = printfs e1 ++ printfs e2.
Proof. unfold printfs. apply omap_app. Qed.

(** ** C7 *)

(** C7.  For every periodic task, in every state of the system and for
    every wait result: the iteration prints the task's own "Deadline
    miss" line exactly once if bit 0 of the wait result is set and
    makes no [printf] call otherwise; the rest of the iteration, the
    local variables and the shared cell afterwards are those of the
    same iteration with the bit clear, and the rest is not empty.  The
    four texts are pairwise different.  A run performs one iteration
    per release, whatever the wait results: no iteration ends the
    loop. *)
Theorem C7_deadline_report_iff_low_bit (r : release) (w : world) :
  rel_task r ∈ periodic_tasks ->
  exists text : string,
    task_miss_text (rel_task r) = Some text
    /\ printfs (period r w).2
       = (if Z.testbit (rel_deadline r) 0 then [text] else [])
    /\ (Printf text ∈ (period r w).2 <-> Z.land (rel_deadline r) 1 <> 0)
    /\ (period r w).1 = (period (with_deadline r 0) w).1
    /\ (period r w).2
       = (if Z.testbit (rel_deadline r) 0 then [Printf text] else [])
           ++ (period (with_deadline r 0) w).2
    /\ (period (with_deadline r 0) w).2 <> []
    /\ NoDup (omap task_miss_text periodic_tasks)
    /\ (forall garbage schedule,
          length (run garbage schedule).2 = length schedule).
Proof.
  intros Hper.
  assert (Htext : exists text, task_miss_text (rel_task r) = Some text).
  { destruct (rel_task r); simpl; eauto.
    exfalso. revert Hper. unfold periodic_tasks.
    rewrite !elem_of_cons, elem_of_nil. intuition discriminate. }
  destruct Htext as [text Htext]. exists text.
  destruct (period_deadline r w text Htext) as (Hp & Hq & Hne).
  cbv zeta in Hp, Hq, Hne.
  rewrite Hp, report_deadline_testbit. cbn [fst snd].
  split; [exact Htext |].
  split.
  { rewrite printfs_app, Hq, app_nil_r. by destruct (Z.testbit _ 0). }
  split.
  { rewrite <- deadline_missed_land, deadline_missed_testbit.
    destruct (Z.testbit (rel_deadline r) 0).
    - split; [reflexivity |]. intros _. apply elem_of_app. left.
      apply list_elem_of_singleton. reflexivity.
    - split; [| discriminate]. simpl. intros Hin.
      assert (Hin' : text ∈ printfs (period (with_deadline r 0) w).2).
      { unfold printfs. apply list_elem_of_omap.
        exists (Printf text). done. }
      rewrite Hq in Hin'. by apply elem_of_nil in Hin'. }
  split; [reflexivity |]. split; [reflexivity |].
  split; [exact Hne |].
  split.
  { apply (bool_decide_unpack _). vm_compute. exact I. }
  intros garbage schedule. apply run_loop_length.
Qed.

Lemma C7_deadline_report_iff_low_bit_witness :
  rel_task (mk_release TASK_PLOT 3 zero_position) ∈ periodic_tasks
  /\ exists text : string,
       task_miss_text TASK_PLOT = Some text
       /\ printfs (period (mk_release TASK_PLOT 3 zero_position)
                     (boot scenario_garbage)).2 = [text].
Proof.
  assert (Hper : rel_task (mk_release TASK_PLOT 3 zero_position)
                 ∈ periodic_tasks).
  { apply (bool_decide_unpack _). vm_compute. exact I. }
  split; [exact Hper |].
  destruct (C7_deadline_report_iff_low_bit
              (mk_release TASK_PLOT 3 zero_position) (boot scenario_garbage)
              Hper) as (text & Ht & Hp & _).
  exists text. split; [exact Ht | exact Hp].
Defined.

(** ** The lock discipline *)

Lemma lock_discipline_free (copied : bool) (ev : list event) :
  lock_discipline false copied ev = lock_discipline false false ev.
Proof.
  destruct ev as [| e ev]; [reflexivity |].
  destruct e; simpl; try reflexivity.
  by destruct (_ =? _).
Qed.

Lemma lock_discipline_app (held copied : bool) (e1 e2 : list event) :
  lock_discipline held copied e1 = true ->
  lock_discipline held copied (e1 ++ e2) = lock_discipline false false e2.
Proof.
  revert held copied.
  induction e1 as [| e e1 IH]; intros held copied H.
  - destruct held; [discriminate |]. apply lock_discipline_free.
  - destruct e; simpl in *;
      repeat match goal with
             | H : _ && _ = true |- _ => apply andb_prop in H as [? ?]
             end;
      repeat match goal with
             | H : ?b = true |- context [?b] => rewrite H
             end;
      simpl; auto.
Qed.

Lemma lock_discipline_concat (log : list (list event)) :
  Forall (fun ev => lock_discipline false false ev = true) log ->
  lock_discipline false false (concat log) = true.
Proof.
  induction 1 as [| ev log Hev _ IH]; [reflexivity |].
  simpl. by rewrite (lock_discipline_app _ _ _ _ Hev).
Qed.

Lemma lock_discipline_report (d : Z) (text : string) :
  lock_discipline false false (report_deadline d text) = true.
Proof. unfold report_deadline. by destruct (deadline_missed d). Qed.

Lemma period_lock_discipline (r : release) (w : world) :
  lock_discipline false false (period r w).2 = true
  /\ accesses (period r w).2 = (if touches_cell (rel_task r) then 1 else 0)%nat.
Proof.
  destruct r as [t d p].
  destruct (task_miss_text t) as [text |] eqn:Et.
  - destruct (period_deadline (mk_release t d p) w text Et) as (-> & _ & _).
    cbn [fst snd].
    rewrite (lock_discipline_app _ _ _ _ (lock_discipline_report _ _)).
    unfold accesses.
    rewrite loads_app, stores_app, loads_report, stores_report.
    unfold period, with_deadline. simpl.
    destruct t; simpl; try done.
    + destruct (task_acc_filter_code.sampled_ten_times (filter_locals w))
        eqn:E.
      * destruct (filter_body_events_primed 0 (global_acc_data w) _ E)
          as [H _].
        destruct (task_acc_filter_code.loop_body _ _ _). simpl in *.
        by rewrite H.
      * destruct (filter_body_events_priming 0 (global_acc_data w) _ E)
          as [H _].
        destruct (task_acc_filter_code.loop_body _ _ _). simpl in *.
        rewrite H. by destruct (_ =? 9).
    + by destruct (_ =? 0).
  - destruct t; try discriminate. done.
Qed.

Lemma events_of_lock_discipline (t : task_id) (schedule : list release)
    (log : list (list event)) :
  Forall (fun ev => lock_discipline false false ev = true) log ->
  Forall (fun ev => lock_discipline false false ev = true)
         (events_of t schedule log).
Proof.
  intros Hlog. revert schedule.
  induction Hlog as [| ev log Hev _ IH]; intros schedule.
  - unfold events_of. rewrite zip_with_nil_r. constructor.
  - destruct schedule as [| q rest]; [constructor |].
    rewrite events_of_cons. apply Forall_app. split; [| apply IH].
    destruct (decide (rel_task q = t)); repeat constructor. exact Hev.
Qed.

Lemma run_lock_discipline (schedule : list release) (w : world) :
  Forall (fun ev => lock_discipline false false ev = true
                    /\ (accesses ev <= 1)%nat)
         (run_loop period schedule w).2.
Proof.
  revert w. induction schedule as [| q rest IH]; intros w; [constructor |].
  rewrite run_loop_cons. cbv zeta. cbn [snd].
  constructor; [| apply IH].
  destruct (period_lock_discipline q w) as [H1 H2].
  split; [exact H1 |]. rewrite H2. destruct (touches_cell _); lia.
Qed.

(** ** C8 *)

(** C8.  In every run of the system, under any schedule: the events of
    every iteration, of the whole run, and of every single task from
    its start (prologue included) obey the lock discipline: each access
    to [global_acc_data] lies between a [sem_take(SEM_SHARED_DATA)] and
    the next [sem_release(SEM_SHARED_DATA)], and between the two there
    is exactly one event, which is that access, a copy of a whole
    sample; rendering, [printf] and the accelerometer read all happen
    with the semaphore released.  An iteration of the sampling, filter
    or plotting task makes exactly one access; the idle and timer
    tasks make none. *)
Theorem C8_shared_cell_lock_discipline
    (garbage : list position_t) (schedule : list release) :
  let log := (run garbage schedule).2 in
  Forall (fun ev => lock_discipline false false ev = true) log
  /\ lock_discipline false false (concat log) = true
  /\ (forall t : task_id,
        lock_discipline false false
          (task_prologue t ++ concat (events_of t schedule log)) = true)
  /\ (forall (r : release) (w : world),
        lock_discipline false false (period r w).2 = true
        /\ accesses (period r w).2
           = (if touches_cell (rel_task r) then 1 else 0)%nat).
Proof.
  cbv zeta. unfold run.
  assert (Hlog : Forall (fun ev => lock_discipline false false ev = true)
                   (run_loop period schedule (boot garbage)).2).
  { eapply Forall_impl; [apply run_lock_discipline |]. by intros ev [H _]. }
  split; [exact Hlog |].
  split; [by apply lock_discipline_concat |].
  split; [| apply period_lock_discipline].
  intros t.
  rewrite (lock_discipline_app false false (task_prologue t)) by (by destruct t).
  apply lock_discipline_concat. by apply events_of_lock_discipline.
Qed.

(** * Further properties of the tasks *)

(** ** The filter task's array *)

(** X1.  The array write of the filter task is always in bounds: after any
    run, [counter] is between 0 and 9, the array still has ten slots,
    and the slot the next iteration writes exists. *)
Theorem filter_write_in_bounds
    (garbage : list position_t) (inputs : list (Z * position_t)) :
  length garbage = 10%nat ->
  let s := (filter_run garbage inputs).1 in
  0 <= task_acc_filter_code.counter s <= 9
  /\ length (task_acc_filter_code.acc_array s) = 10%nat
  /\ is_Some (task_acc_filter_code.acc_array s
               !! Z.to_nat (task_acc_filter_code.counter s)).
Proof.
  intros Hg. cbv zeta.
  destruct (filter_run_inv garbage inputs Hg)
    as (Hc & _ & newer & older & Harr & _ & _ & Hlen).
  pose proof (Nat.mod_upper_bound (length inputs.*2) 10 ltac:(lia)) as Hlt.
  rewrite Hc, Harr. split; [lia |]. split; [exact Hlen |].
  apply lookup_lt_is_Some. lia.
Qed.

Lemma filter_write_in_bounds_witness :
  length scenario_garbage = 10%nat
  /\ 0 <= task_acc_filter_code.counter
            (filter_run scenario_garbage (scenario_inputs (fun _ => 0))).1
       <= 9.
Proof.
  split; [reflexivity |].
  exact (proj1 (filter_write_in_bounds scenario_garbage
                  (scenario_inputs (fun _ => 0)) eq_refl)).
Defined.

Lemma last_n_lookup {A : Type} (n j : nat) (l : list A) :
  (n <= length l)%nat ->
  last_n n l !! j = l !! (length l - n + j)%nat.
Proof. intros H. unfold last_n. apply lookup_drop. Qed.

(** X2.  The array as a ring buffer, slot by slot.  After any run, each of
    the last ten loaded values sits in the slot numbered by its
    position modulo 10, and a slot not yet written still holds its
    initial content. *)
Theorem filter_buffer_slots
    (garbage : list position_t) (inputs : list (Z * position_t)) :
  length garbage = 10%nat ->
  let arr := task_acc_filter_code.acc_array (filter_run garbage inputs).1 in
  (forall (k : nat) (p : position_t),
      inputs.*2 !! k = Some p ->
      (length inputs <= k + 10)%nat ->
      arr !! (k mod 10)%nat = Some p)
  /\ (forall i : nat,
        (length inputs <= i < 10)%nat -> arr !! i = garbage !! i).
Proof.
  intros Hg. cbv zeta.
  destruct (filter_run_inv garbage inputs Hg)
    as (_ & _ & newer & older & -> & Hwin & Hnew & Hlen).
  rewrite length_fmap in Hnew. rewrite length_app in Hlen.
  set (n := length inputs) in *.
  pose proof (Nat.mod_upper_bound n 10 ltac:(lia)) as Hlt.
  pose proof (Nat.div_mod_eq n 10) as Hn.
  assert (Hw : forall j, (older ++ newer) !! j
                         = (garbage ++ inputs.*2) !! (n + j)%nat).
  { intros j. rewrite <- Hwin, last_n_lookup
      by (rewrite length_app, length_fmap; lia).
    f_equal. rewrite length_app, length_fmap. fold n. lia. }
  split.
  - intros k p Hk Hwindow.
    assert (Hkn : (k < n)%nat).
    { apply lookup_lt_Some in Hk. by rewrite length_fmap in Hk. }
    pose proof (Nat.mod_upper_bound k 10 ltac:(lia)) as Hklt.
    pose proof (Nat.div_mod_eq k 10) as Hkd.
    specialize (Hw (10 + k - n)%nat).
    replace (n + (10 + k - n))%nat with (length garbage + k)%nat in Hw by lia.
    rewrite (lookup_app_r garbage) in Hw by lia.
    replace (length garbage + k - length garbage)%nat with k in Hw by lia.
    rewrite Hk in Hw.
    destruct (decide (10 + k - n < length older)%nat) as [Hj | Hj].
    + rewrite lookup_app_l in Hw by lia.
      rewrite lookup_app_r by lia. rewrite <- Hw. f_equal. lia.
    + rewrite lookup_app_r in Hw by lia.
      rewrite lookup_app_l by lia. rewrite <- Hw. f_equal. lia.
  - intros i Hi.
    assert (Hsmall : (n mod 10 = n)%nat) by (apply Nat.mod_small; lia).
    specialize (Hw (i - n)%nat).
    replace (n + (i - n))%nat with i in Hw by lia.
    rewrite (lookup_app_l garbage) in Hw by lia.
    rewrite lookup_app_l in Hw by lia.
    rewrite lookup_app_r by lia. rewrite <- Hw. f_equal. lia.
Qed.

Lemma filter_buffer_slots_witness :
  length scenario_garbage = 10%nat
  /\ (scenario_inputs (fun _ => 0)).*2 !! 3%nat = Some (scenario_sample 3)
  /\ task_acc_filter_code.acc_array
       (filter_run scenario_garbage (scenario_inputs (fun _ => 0))).1
     !! 3%nat = Some (scenario_sample 3).
Proof.
  split; [reflexivity |]. split; [reflexivity |].
  exact (proj1 (filter_buffer_slots scenario_garbage
                  (scenario_inputs (fun _ => 0)) eq_refl)
           3%nat (scenario_sample 3) eq_refl ltac:(vm_compute; lia)).
Defined.

(** ** The initial content of the array never shows *)

Lemma filter_array_determined (g1 g2 loaded : list position_t)
    (s1 s2 : task_acc_filter_code.locals) :
  length g1 = 10%nat -> length g2 = 10%nat ->
  (10 <= length loaded)%nat ->
  filter_inv g1 loaded s1 -> filter_inv g2 loaded s2 ->
  task_acc_filter_code.acc_array s1 = task_acc_filter_code.acc_array s2.
Proof.
  intros H1 H2 Hn (_ & _ & n1 & o1 & -> & W1 & L1 & T1)
                  (_ & _ & n2 & o2 & -> & W2 & L2 & T2).
  rewrite last_n_app_r in W1, W2 by lia.
  rewrite length_app in T1, T2.
  assert (Ho : length o1 = length o2) by lia.
  destruct (app_inj_1 o1 o2 n1 n2 Ho ltac:(congruence)) as [-> ->].
  reflexivity.
Qed.

Lemma filter_body_congr (d : Z) (g : position_t)
    (s1 s2 : task_acc_filter_code.locals) :
  task_acc_filter_code.counter s1 = task_acc_filter_code.counter s2 ->
  task_acc_filter_code.sampled_ten_times s1
  = task_acc_filter_code.sampled_ten_times s2 ->
  filter_averages s1 = filter_averages s2 ->
  (task_acc_filter_code.sampled_ten_times s1 = true ->
   task_acc_filter_code.acc_array s1 = task_acc_filter_code.acc_array s2) ->
  (task_acc_filter_code.loop_body d g s1).2
  = (task_acc_filter_code.loop_body d g s2).2
  /\ filter_averages (task_acc_filter_code.loop_body d g s1).1
     = filter_averages (task_acc_filter_code.loop_body d g s2).1.
Proof.
  unfold filter_averages. intros Hc Hf [= Hx Hy Hz] Ha.
  destruct (task_acc_filter_code.sampled_ten_times s1) eqn:E1.
  - specialize (Ha eq_refl). symmetry in Hf.
    unfold task_acc_filter_code.loop_body.
    rewrite E1, Hf, Hc, Ha.
    by destruct (task_acc_filter_code.sum_loop _ _) as [[sx sy] sz].
  - symmetry in Hf.
    destruct (filter_body_events_priming d g s1 E1) as (-> & -> & -> & ->).
    destruct (filter_body_events_priming d g s2 Hf) as (-> & -> & -> & ->).
    by rewrite Hc, Hx, Hy, Hz.
Qed.

(** X3.  Uninitialised memory never reaches the screen.  Whatever the
    initial content of [acc_array], the filter task makes the same
    calls with the same arguments in every iteration and ends with the
    same averages; once ten values have been loaded its whole state is
    the same. *)
Theorem filter_independent_of_initial_array
    (g1 g2 : list position_t) (inputs : list (Z * position_t)) :
  length g1 = 10%nat -> length g2 = 10%nat ->
  (filter_run g1 inputs).2 = (filter_run g2 inputs).2
  /\ filter_averages (filter_run g1 inputs).1
     = filter_averages (filter_run g2 inputs).1
  /\ ((10 <= length inputs)%nat ->
      (filter_run g1 inputs).1 = (filter_run g2 inputs).1).
Proof.
  intros H1 H2.
  assert (Hpair :
    (filter_run g1 inputs).2 = (filter_run g2 inputs).2
    /\ filter_averages (filter_run g1 inputs).1
       = filter_averages (filter_run g2 inputs).1).
  { induction inputs as [| [d g] inputs IH] using rev_ind; [done |].
    destruct IH as [IHlog IHavg].
    rewrite !run_loop_filter_snoc. cbv zeta. cbn [fst snd].
    destruct (filter_run_cursor g1 inputs) as (C1 & F1 & _).
    destruct (filter_run_cursor g2 inputs) as (C2 & F2 & _).
    destruct (filter_body_congr d g (filter_run g1 inputs).1
                (filter_run g2 inputs).1) as [Hev Havg].
    - congruence.
    - congruence.
    - exact IHavg.
    - intros Hprimed. rewrite F1 in Hprimed.
      apply bool_decide_eq_true_1 in Hprimed.
      apply (filter_array_determined g1 g2 inputs.*2); try done.
      + by rewrite length_fmap.
      + by apply filter_run_inv.
      + by apply filter_run_inv.
    - by rewrite IHlog, Hev, Havg. }
  destruct Hpair as [Hlog Havg].
  split; [exact Hlog |]. split; [exact Havg |].
  intros Hn.
  destruct (filter_run_cursor g1 inputs) as (C1 & F1 & _).
  destruct (filter_run_cursor g2 inputs) as (C2 & F2 & _).
  pose proof (filter_array_determined g1 g2 inputs.*2 _ _ H1 H2
                ltac:(by rewrite length_fmap)
                (filter_run_inv g1 inputs H1) (filter_run_inv g2 inputs H2))
    as Harr.
  unfold filter_averages in Havg. injection Havg as Hx Hy Hz.
  destruct (filter_run g1 inputs).1, (filter_run g2 inputs).1.
  simpl in *. congruence.
Qed.

Lemma filter_independent_of_initial_array_witness :
  length scenario_garbage = 10%nat
  /\ length extreme_array = 10%nat
  /\ (filter_run scenario_garbage (scenario_inputs (fun _ => 1))).2
     = (filter_run extreme_array (scenario_inputs (fun _ => 1))).2.
Proof.
  split; [reflexivity |]. split; [reflexivity |].
  exact (proj1 (filter_independent_of_initial_array scenario_garbage
                  extreme_array (scenario_inputs (fun _ => 1))
                  eq_refl eq_refl)).
Defined.

(** ** The average stays within the window *)

Lemma sum_of_box (field : position_t -> Z) (lo hi : Z)
    (l : list position_t) :
  Forall (fun p => lo <= field p <= hi) l ->
  lo * Z.of_nat (length l) <= sum_of field l <= hi * Z.of_nat (length l).
Proof.
  induction 1 as [| p l Hp _ IH]; [simpl; lia |].
  change (sum_of field (p :: l)) with (field p + sum_of field l).
  simpl length. rewrite Nat2Z.inj_succ, !Z.mul_succ_r. lia.
Qed.

Lemma quot10_box (lo hi v : Z) :
  lo * 10 <= v <= hi * 10 -> lo <= Z.quot v 10 <= hi.
Proof.
  intros [Hlo Hhi]. split.
  - rewrite <- (Z.quot_mul lo 10) by lia. apply Z.quot_le_mono; lia.
  - rewrite <- (Z.quot_mul hi 10) by lia. apply Z.quot_le_mono; lia.
Qed.

(** X4.  The filter does not overshoot.  In an iteration that shows an
    average, if the last ten loaded values lie, axis by axis, between
    [lo] and [hi], so does the average shown; in particular, when the
    last ten loaded values are all equal to [p], the average shown is
    [p] itself. *)
Theorem filter_average_within_window_bounds
    (garbage : list position_t) (inputs : list (Z * position_t))
    (d : Z) (g lo hi : position_t) :
  length garbage = 10%nat ->
  (10 <= length inputs)%nat ->
  Forall sample_ok (inputs.*2 ++ [g]) ->
  Forall (within_box lo hi) (last_n 10 (inputs.*2 ++ [g])) ->
  exists ax ay az : Z,
    displayed_average
      (task_acc_filter_code.loop_body d g (filter_run garbage inputs).1).2
    = Some (ax, ay, az)
    /\ within_box lo hi (mk_position ax ay az)
    /\ (lo = hi -> mk_position ax ay az = lo).
Proof.
  intros Hg Hn Hok Hbox.
  destruct (filter_primed_period garbage inputs d g Hg Hn Hok)
    as (Hshow & _ & _).
  set (window := last_n 10 (inputs.*2 ++ [g])) in *.
  assert (Hlen : length window = 10%nat).
  { apply last_n_length. rewrite length_app, length_fmap. simpl. lia. }
  exists (Z.quot (sum_x window) 10), (Z.quot (sum_y window) 10),
         (Z.quot (sum_z window) 10).
  split; [exact Hshow |].
  assert (Hin : within_box lo hi
                  (mk_position (Z.quot (sum_x window) 10)
                     (Z.quot (sum_y window) 10) (Z.quot (sum_z window) 10))).
  { unfold within_box, sum_x, sum_y, sum_z. simpl.
    pose proof (sum_of_box x (x lo) (x hi) window
                  ltac:(eapply Forall_impl; [exact Hbox |];
                        by intros p (? & ? & ?))) as Bx.
    pose proof (sum_of_box y (y lo) (y hi) window
                  ltac:(eapply Forall_impl; [exact Hbox |];
                        by intros p (? & ? & ?))) as By.
    pose proof (sum_of_box z (z lo) (z hi) window
                  ltac:(eapply Forall_impl; [exact Hbox |];
                        by intros p (? & ? & ?))) as Bz.
    rewrite Hlen in Bx, By, Bz.
    split; [| split]; apply quot10_box; lia. }
  split; [exact Hin |].
  intros <-. destruct lo as [lx ly lz].
  unfold within_box in Hin. simpl in Hin. f_equal; lia.
Qed.

Lemma filter_average_within_window_bounds_witness :
  exists ax ay az : Z,
    displayed_average
      (task_acc_filter_code.loop_body 0 (mk_position 5 (-7) 256)
         (filter_run scenario_garbage
            (replicate 10 (0, mk_position 5 (-7) 256))).1).2
    = Some (ax, ay, az)
    /\ mk_position ax ay az = mk_position 5 (-7) 256.
Proof.
  destruct (filter_average_within_window_bounds scenario_garbage
              (replicate 10 (0, mk_position 5 (-7) 256)) 0
              (mk_position 5 (-7) 256) (mk_position 5 (-7) 256)
              (mk_position 5 (-7) 256) eq_refl
              ltac:(vm_compute; lia)
              ltac:(apply (bool_decide_unpack _); vm_compute; exact I)
              ltac:(vm_compute; repeat constructor; discriminate))
    as (ax & ay & az & Hshow & _ & Hsame).
  exists ax, ay, az. split; [exact Hshow | exact (Hsame eq_refl)].
Defined.

(** ** The timer task *)

Lemma timer_run_snoc (deadlines : list Z) (d : Z) :
  timer_run (deadlines ++ [d])
  = let r := timer_run deadlines in
    let b := timer_task_code.loop_body d r.1 in
    (b.1, r.2 ++ [b.2]).
Proof. unfold timer_run. by rewrite run_loop_snoc. Qed.

Lemma timer_run_time (deadlines : list Z) :
  timer_task_code.time (timer_run deadlines).1
  = Z.of_nat (length deadlines) mod 2 ^ 32.
Proof.
  induction deadlines as [| d deadlines IH] using rev_ind; [done |].
  rewrite timer_run_snoc. cbv zeta.
  unfold timer_task_code.loop_body. cbn [fst timer_task_code.time].
  rewrite IH, length_app. simpl length.
  unfold to_uint, wrap_unsigned.
  rewrite Z.add_mod_idemp_l by lia. f_equal. lia.
Qed.

(** X5.  The timer counts its own iterations, not elapsed periods.  In any
    run, iteration [k] (counted from 0) prints "Timer" and shows the
    number [k + 1], reduced modulo 2^32 as [unsigned int] arithmetic
    does; a wait result that reports a missed deadline adds a line of
    text and changes nothing else, so a missed period is never made up
    for. *)
Theorem timer_shows_iteration_count
    (deadlines : list Z) (k : nat) (ev : list event) :
  (timer_run deadlines).2 !! k = Some ev ->
  int_printed_at 70 165 ev = [(Z.of_nat k + 1) mod 2 ^ 32]
  /\ TtyPrint 70 140 "Timer" Col_White Col_Black ∈ ev
  /\ timer_task_code.time (timer_run (take (S k) deadlines)).1
     = (Z.of_nat k + 1) mod 2 ^ 32.
Proof.
  intros Hev.
  assert (Hk : (k < length deadlines)%nat).
  { apply lookup_lt_Some in Hev. unfold timer_run in Hev.
    by rewrite run_loop_length in Hev. }
  destruct (lookup_lt_is_Some_2 deadlines k Hk) as [d Hd].
  destruct (run_loop_lookup timer_task_code.loop_body deadlines
              timer_task_code.init k d Hd) as [Hlog _].
  fold (timer_run deadlines) in Hlog.
  fold (timer_run (take k deadlines)) in Hlog.
  assert (ev = (timer_task_code.loop_body d
                  (timer_run (take k deadlines)).1).2) as -> by congruence.
  pose proof (timer_run_time (take k deadlines)) as Hbefore.
  pose proof (timer_run_time (take (S k) deadlines)) as Hafter.
  rewrite length_take, Nat.min_l in Hbefore, Hafter by lia.
  rewrite Hafter, Nat2Z.inj_succ, <- Z.add_1_r.
  unfold timer_task_code.loop_body, report_deadline. cbn [snd].
  rewrite Hbefore. unfold to_uint, wrap_unsigned.
  rewrite Z.add_mod_idemp_l by lia.
  split; [by destruct (deadline_missed d) |].
  split; [| reflexivity].
  apply elem_of_app. right. apply list_elem_of_here.
Qed.

Lemma timer_shows_iteration_count_witness :
  (timer_run [0; 1; 0]).2 !! 2%nat
  = Some [TtyPrint 70 140 "Timer" Col_White Col_Black;
          IntPrint 70 165 3 5 Col_White Col_Black]
  /\ int_printed_at 70 165
       [TtyPrint 70 140 "Timer" Col_White Col_Black;
        IntPrint 70 165 3 5 Col_White Col_Black] = [3].
Proof.
  split; [reflexivity |].
  exact (proj1 (timer_shows_iteration_count [0; 1; 0] 2
                  [TtyPrint 70 140 "Timer" Col_White Col_Black;
                   IntPrint 70 165 3 5 Col_White Col_Black] eq_refl)).
Defined.

(** ** The shared cell in a run of the system *)

Lemma run_stores (schedule : list release) (w : world) :
  stores (concat (run_loop period schedule w).2)
  = rel_sensor <$> releases_of TASK_ACC schedule.
Proof.
  revert w. induction schedule as [| q rest IH]; intros w; [done |].
  rewrite run_loop_cons. cbv zeta. cbn [snd]. simpl concat.
  rewrite stores_app, period_stores, IH.
  unfold releases_of. rewrite filter_cons.
  by destruct (decide (rel_task q = TASK_ACC)).
Qed.

Lemma run_cell (garbage : list position_t) (schedule : list release) :
  global_acc_data (run garbage schedule).1
  = default zero_position
      (last (rel_sensor <$> releases_of TASK_ACC schedule)).
Proof.
  unfold run.
  by rewrite (cell_is_latest_store schedule (boot garbage)), run_stores.
Qed.

(** X6.  Only the sampling task writes the shared cell, and it writes what
    it read.  In any run, the values stored into [global_acc_data] are
    the accelerometer readings of the sampling task's releases, in
    order, one store per release; the cell ends up holding the last
    reading, or zero if the sampling task never ran; and a release of
    any other task leaves the cell as it was. *)
Theorem stores_are_the_sensor_readings
    (garbage : list position_t) (schedule : list release) :
  stores (concat (run garbage schedule).2)
  = rel_sensor <$> releases_of TASK_ACC schedule
  /\ global_acc_data (run garbage schedule).1
     = default zero_position
         (last (rel_sensor <$> releases_of TASK_ACC schedule))
  /\ (forall r : release,
        rel_task r <> TASK_ACC ->
        global_acc_data (period r (run garbage schedule).1).1
        = global_acc_data (run garbage schedule).1).
Proof.
  split; [apply run_stores |]. split; [apply run_cell |].
  intros r Hr. rewrite period_cell. by rewrite decide_False.
Qed.

(** ** From the system to the plotting task *)

Lemma period_plot (r : release) (w : world) :
  rel_task r = TASK_PLOT ->
  plot_locals (period r w).1
  = (task_plot_code.loop_body (rel_deadline r) (global_acc_data w)
       (plot_locals w)).1
  /\ (period r w).2
     = (task_plot_code.loop_body (rel_deadline r) (global_acc_data w)
          (plot_locals w)).2.
Proof. intros E. unfold period. by rewrite E. Qed.

Lemma period_plot_other (r : release) (w : world) :
  rel_task r <> TASK_PLOT -> plot_locals (period r w).1 = plot_locals w.
Proof.
  intros E. unfold period. destruct (rel_task r); simpl; try done.
  by destruct (task_acc_filter_code.loop_body _ _ _).
Qed.

Lemma run_plot_projection (schedule : list release) (w : world) :
  plot_locals (run_loop period schedule w).1
  = (run_loop (fun i => task_plot_code.loop_body i.1 i.2)
       (reader_inputs TASK_PLOT schedule (global_acc_data w))
       (plot_locals w)).1.
Proof.
  revert w. induction schedule as [| q rest IH]; intros w; [done |].
  rewrite run_loop_cons. cbv zeta. cbn [fst snd].
  rewrite IH. simpl reader_inputs. rewrite <- period_cell.
  destruct (decide (rel_task q = TASK_PLOT)) as [E | E].
  - destruct (period_plot q w E) as [H1 _].
    simpl app. rewrite run_loop_cons. cbv zeta. cbn [fst snd].
    by rewrite <- H1.
  - simpl app. by rewrite (period_plot_other q w E).
Qed.

Lemma reader_inputs_length (t : task_id) (schedule : list release)
    (cell : position_t) :
  length (reader_inputs t schedule cell) = length (releases_of t schedule).
Proof.
  revert cell. induction schedule as [| q rest IH]; intros cell; [done |].
  simpl. unfold releases_of. rewrite length_app, IH, filter_cons.
  by destruct (decide (rel_task q = t)).
Qed.

Lemma plot_body_loads (d : Z) (g : position_t) (s : task_plot_code.locals) :
  loads (task_plot_code.loop_body d g s).2 = [g].
Proof.
  unfold task_plot_code.loop_body. cbn [snd].
  rewrite !loads_app, loads_report. by destruct (_ =? 0).
Qed.

(** X7.  The plot follows the sampling task.  In any run of the system, with
    the tasks released in any order, a release of the plotting task
    loads the most recent accelerometer reading (zero if there is none
    yet) and draws its one point at x = 205 + 5 * (number of its
    earlier releases modulo 5) and y = 180 - z / 8 for the z of that
    reading. *)
Theorem plot_draws_the_latest_reading
    (garbage : list position_t) (schedule : list release) (r : release) :
  sensors_ok schedule ->
  rel_task r = TASK_PLOT ->
  let cell :=
    default zero_position (last (rel_sensor <$> releases_of TASK_ACC schedule))
  in
  let now := period r (run garbage schedule).1 in
  loads now.2 = [cell]
  /\ filled_circles now.2
     = [(205 + 5 * Z.of_nat (length (releases_of TASK_PLOT schedule) mod 5),
         180 - Z.quot (z cell) 8, 1, Col_Green)].
Proof.
  intros Hs Hr. cbv zeta.
  pose proof (run_cell garbage schedule) as Hcell.
  assert (Hok : sample_ok (global_acc_data (run garbage schedule).1)).
  { unfold run. apply run_cell_ok; [apply zero_position_ok | exact Hs]. }
  destruct (period_plot r (run garbage schedule).1 Hr) as [_ ->].
  rewrite plot_body_loads, plot_body_circles, <- Hcell.
  split; [reflexivity |].
  unfold run at 1. rewrite run_plot_projection.
  change (global_acc_data (boot garbage)) with zero_position.
  change (plot_locals (boot garbage)) with task_plot_code.init.
  fold (plot_run (reader_inputs TASK_PLOT schedule zero_position)).
  rewrite plot_run_cursor, reader_inputs_length.
  pose proof (Nat.mod_upper_bound (length (releases_of TASK_PLOT schedule)) 5
                ltac:(lia)).
  rewrite point_x_exact by lia.
  rewrite point_y_exact by apply Hok.
  reflexivity.
Qed.

Lemma plot_draws_the_latest_reading_witness :
  sensors_ok scenario_before_eleventh_load
  /\ filled_circles
       (period (mk_release TASK_PLOT 0 zero_position)
          (run scenario_garbage scenario_before_eleventh_load).1).2
     = [(205, 176, 1, Col_Green)].
Proof.
  assert (Hs : sensors_ok scenario_before_eleventh_load).
  { unfold sensors_ok. apply (bool_decide_unpack _). vm_compute. exact I. }
  split; [exact Hs |].
  exact (proj2 (plot_draws_the_latest_reading scenario_garbage
                  scenario_before_eleventh_load
                  (mk_release TASK_PLOT 0 zero_position) Hs eq_refl)).
Defined.

(** ** Where the plotted point lands *)

(** X8.  The plotted point and the rectangle the plotting task clears.  For
    a 16-bit sample and a cursor between 0 and 4, the centre of the
    point lies in the rectangle cleared at the start of a sweep exactly
    when -479 <= z <= 447; for other z the point is drawn outside it,
    where no clear of the plotting task reaches, and for
    560 <= z <= 1447 it lands in the rectangle that the filter task
    clears and prints in. *)
Theorem plot_point_inside_chart (c : Z) (g : position_t) :
  sample_ok g ->
  0 <= c <= 4 ->
  (WritePixel (task_plot_code.point_x c) (task_plot_code.point_y g) Col_Black
     ∈ clear_screen_range 170 125 319 239
   <-> -479 <= z g <= 447)
  /\ (WritePixel (task_plot_code.point_x c) (task_plot_code.point_y g)
        Col_Black
      ∈ clear_screen_range 170 0 319 110
      <-> 560 <= z g <= 1447).
Proof.
  intros (_ & _ & Hz) Hc.
  rewrite !clear_screen_range_spec, point_x_exact, point_y_exact by done.
  pose proof (Z.quot_rem' (z g) 8) as Hqr.
  unfold in_int16, INT16_MIN, INT16_MAX in Hz.
  assert (Hrem : (0 <= z g -> 0 <= Z.rem (z g) 8 < 8)
                 /\ (z g <= 0 -> -8 < Z.rem (z g) 8 <= 0)).
  { split; intros H.
    - apply Z.rem_bound_pos; lia.
    - pose proof (Z.rem_bound_pos (- z g) 8 ltac:(lia) ltac:(lia)) as Hb.
      rewrite Z.rem_opp_l in Hb by lia. lia. }
  destruct Hrem as [Hp Hn].
  split; split; intros H; repeat split; try reflexivity; lia.
Qed.

Lemma plot_point_inside_chart_witness :
  sample_ok (mk_position 0 0 600)
  /\ 0 <= 2 <= 4
  /\ WritePixel (task_plot_code.point_x 2)
       (task_plot_code.point_y (mk_position 0 0 600)) Col_Black
     ∈ clear_screen_range 170 0 319 110.
Proof.
  assert (Hok : sample_ok (mk_position 0 0 600)).
  { apply (bool_decide_unpack _). vm_compute. exact I. }
  split; [exact Hok |]. split; [lia |].
  apply (proj2 (plot_point_inside_chart 2 (mk_position 0 0 600) Hok
                  ltac:(lia))).
  simpl. lia.
Defined.

(** ** clear_screen_range, pixel by pixel *)

(** X9.  What a call of [clear_screen_range] does.  It writes only pixels,
    all black; a pixel is written exactly when it lies in the
    rectangle, both bounds included, and it is written once; the number
    of writes is width times height; and nothing is written when an
    upper bound is below its lower bound. *)
Theorem clear_screen_range_covers_rectangle_once
    (start_x start_y end_x end_y : Z) :
  rectangle_args start_x start_y end_x end_y ->
  (forall e, e ∈ clear_screen_range start_x start_y end_x end_y ->
     exists px py,
       e = WritePixel px py Col_Black
       /\ start_x <= px <= end_x /\ start_y <= py <= end_y)
  /\ (forall px py,
        start_x <= px <= end_x -> start_y <= py <= end_y ->
        occurrences (WritePixel px py Col_Black)
          (clear_screen_range start_x start_y end_x end_y) = 1%nat)
  /\ length (clear_screen_range start_x start_y end_x end_y)
     = (Z.to_nat (end_x + 1 - start_x) * Z.to_nat (end_y + 1 - start_y))%nat
  /\ (end_x < start_x \/ end_y < start_y ->
      clear_screen_range start_x start_y end_x end_y = []).
Proof.
  intros _.
  assert (Hnodup : NoDup (clear_screen_range start_x start_y end_x end_y)).
  { unfold clear_screen_range. apply NoDup_flat_map.
    - apply NoDup_offsets.
    - intros col _. apply NoDup_fmap_2_strong; [| apply NoDup_offsets].
      intros r1 r2 _ _ H. by injection H.
    - intros a b v _ _ Ha Hb.
      apply list_elem_of_fmap in Ha as (r1 & -> & _).
      apply list_elem_of_fmap in Hb as (r2 & H & _). by injection H. }
  split; [| split; [| split]].
  - intros e He.
    assert (exists px py c, e = WritePixel px py c) as (px & py & c & ->).
    { unfold clear_screen_range in He.
      apply list_elem_of_In, in_flat_map in He as (col & _ & He).
      apply in_map_iff in He as (row & <- & _). eauto. }
    apply clear_screen_range_spec in He as (-> & Hx & Hy). eauto.
  - intros px py Hx Hy. apply occurrences_NoDup; [exact Hnodup |].
    by apply clear_screen_range_spec.
  - unfold clear_screen_range.
    rewrite (flat_map_constant_length
               (c := Z.to_nat (end_y + 1 - start_y))).
    + by rewrite length_map, length_seq.
    + intros col _. by rewrite !length_map, length_seq.
  - intros [H | H]; unfold clear_screen_range.
    + by replace (Z.to_nat (end_x + 1 - start_x)) with 0%nat by lia.
    + replace (Z.to_nat (end_y + 1 - start_y)) with 0%nat by lia.
      simpl. induction (map _ _) as [| a l IH]; [done | exact IH].
Qed.

Lemma clear_screen_range_covers_rectangle_once_witness :
  rectangle_args 170 0 319 110
  /\ occurrences (WritePixel 230 50 Col_Black)
       (clear_screen_range 170 0 319 110) = 1%nat.
Proof.
  assert (Hargs : rectangle_args 170 0 319 110).
  { unfold rectangle_args, SIZE_MAX. lia. }
  split; [exact Hargs |].
  exact (proj1 (proj2
           (clear_screen_range_covers_rectangle_once 170 0 319 110 Hargs))
           230 50 ltac:(lia) ltac:(lia)).
Defined.

(** * main *)

Lemma land3_range (v : Z) : 0 <= Z.land 3 v <= 3.
Proof.
  rewrite Z.land_comm. change 3 with (Z.ones 2) at 1 2.
  rewrite Z.land_ones by lia.
  pose proof (Z.mod_pos_bound v (2 ^ 2) ltac:(lia)). simpl. lia.
Qed.

Lemma button_value (v : Z) : to_int (Z.land 3 v) = Z.land 3 v.
Proof.
  apply to_int_exact. pose proof (land3_range v).
  unfold in_int, INT_MIN, INT_MAX. lia.
Qed.

Lemma button_wait_shape (reads : list Z) :
  match button_wait reads with
  | Some (button, polls) =>
      exists idle v rest,
        reads = idle ++ v :: rest
        /\ Forall (fun u => ~ button_pressed u) idle
        /\ button_pressed v
        /\ button = Z.land 3 v
        /\ polls = ReadButtons <$> (idle ++ [v])
  | None => Forall (fun u => ~ button_pressed u) reads
  end.
Proof.
  induction reads as [| v reads IH]; [constructor |].
  simpl. rewrite button_value.
  destruct (Z.eqb_spec (Z.land 3 v) 3) as [E | E].
  - destruct (button_wait reads) as [[b ev] |].
    + destruct IH as (idle & u & rest & -> & Hidle & Hu & -> & ->).
      exists (v :: idle), u, rest.
      repeat split; try done.
      constructor; [| exact Hidle]. unfold button_pressed. lia.
    + constructor; [| exact IH]. unfold button_pressed. lia.
  - by exists [], v, reads.
Qed.

Lemma button_wait_complete (idle rest : list Z) (v : Z) :
  Forall (fun u => ~ button_pressed u) idle ->
  button_pressed v ->
  button_wait (idle ++ v :: rest)
  = Some (Z.land 3 v, ReadButtons <$> (idle ++ [v])).
Proof.
  intros Hidle Hv. induction Hidle as [| u idle Hu _ IH]; simpl.
  - rewrite button_value.
    by destruct (Z.eqb_spec (Z.land 3 v) 3).
  - rewrite button_value, IH.
    destruct (Z.eqb_spec (Z.land 3 u) 3); [done |].
    by destruct Hu.
Qed.

(** X10.  The button wait.  The loop ends with [button = b] after the reads
    [polls] exactly when the register values read are some values that
    show no button (both low bits set) followed by one that shows a
    button pressed, [polls] being those reads and [b] the two low bits
    of the last, a value from 0 to 2.  Values after that one are never
    read. *)
Theorem button_wait_stops_at_first_press
    (reads : list Z) (b : Z) (polls : list main_event) :
  button_wait reads = Some (b, polls)
  <-> exists idle v rest,
        reads = idle ++ v :: rest
        /\ Forall (fun u => ~ button_pressed u) idle
        /\ button_pressed v
        /\ b = Z.land 3 v
        /\ 0 <= b <= 2
        /\ polls = ReadButtons <$> (idle ++ [v]).
Proof.
  split.
  - intros Hwait. pose proof (button_wait_shape reads) as H.
    rewrite Hwait in H.
    destruct H as (idle & v & rest & -> & Hidle & Hv & -> & ->).
    exists idle, v, rest. pose proof (land3_range v).
    unfold button_pressed in Hv. repeat split; try done; lia.
  - intros (idle & v & rest & -> & Hidle & Hv & -> & _ & ->).
    by apply button_wait_complete.
Qed.

Lemma retry_until_ready_shape
    (call : Z -> main_event) (complaint : string) (results : list Z) :
  match retry_until_ready call complaint results with
  | Some ev =>
      exists failures r rest,
        results = failures ++ r :: rest
        /\ Forall (fun f => f = 0) failures
        /\ r <> 0
        /\ ev = flat_map (fun f => [call f; MainCall (Printf complaint)])
                  failures ++ [call r]
  | None => Forall (fun f => f = 0) results
  end.
Proof.
  induction results as [| r results IH]; [constructor |].
  simpl. destruct (Z.eqb_spec r 0) as [-> | E].
  - destruct (retry_until_ready call complaint results) as [ev |].
    + destruct IH as (failures & s & rest & -> & Hf & Hs & ->).
      exists (0 :: failures), s, rest.
      repeat split; try done. by constructor.
    + by constructor.
  - exists [], r, results. by repeat split.
Qed.

Lemma retry_until_ready_complete
    (call : Z -> main_event) (complaint : string) (n : nat) (r : Z)
    (rest : list Z) :
  r <> 0 ->
  retry_until_ready call complaint (replicate n 0 ++ r :: rest)
  = Some (flat_map (fun f => [call f; MainCall (Printf complaint)])
            (replicate n 0) ++ [call r]).
Proof.
  intros Hr. induction n as [| n IH]; simpl.
  - by destruct (Z.eqb_spec r 0).
  - by rewrite IH.
Qed.

(** X11.  The accelerometer retry loops.  The loop ends after the calls [ev]
    exactly when the results are some number [n] of zeros followed by
    a non-zero result [r]: [ev] is then [n] times the call and the
    complaint, followed by the successful call.  So each failure is
    reported exactly once, nothing is printed after the success, later
    results are never asked for, and there is no limit on [n]. *)
Theorem retry_until_ready_stops_at_first_success
    (call : Z -> main_event) (complaint : string) (results : list Z)
    (ev : list main_event) :
  retry_until_ready call complaint results = Some ev
  <-> exists (n : nat) (r : Z) (rest : list Z),
        results = replicate n 0 ++ r :: rest
        /\ r <> 0
        /\ ev = flat_map (fun f => [call f; MainCall (Printf complaint)])
                  (replicate n 0) ++ [call r].
Proof.
  split.
  - intros Hretry.
    pose proof (retry_until_ready_shape call complaint results) as H.
    rewrite Hretry in H.
    destruct H as (failures & r & rest & -> & Hf & Hr & ->).
    exists (length failures), r, rest.
    assert (Hrep : failures = replicate (length failures) 0).
    { clear -Hf. induction Hf as [| f l -> _ IH]; [done |].
      simpl. by rewrite <- IH. }
    by rewrite <- Hrep.
  - intros (n & r & rest & -> & Hr & ->).
    by apply retry_until_ready_complete.
Qed.

Lemma button_wait_is_Some (reads : list Z) :
  is_Some (button_wait reads) <-> Exists button_pressed reads.
Proof.
  pose proof (button_wait_shape reads) as H.
  destruct (button_wait reads) as [[b ev] |].
  - split; [intros _ | eauto].
    destruct H as (idle & v & rest & -> & _ & Hv & _).
    apply Exists_app. right. by constructor.
  - split; [by intros [? ?] |].
    intros Hex. apply Exists_exists in Hex as (v & Hin & Hv).
    rewrite Forall_forall in H. by destruct (H v Hin).
Qed.

Lemma retry_until_ready_is_Some (call : Z -> main_event)
    (complaint : string) (results : list Z) :
  is_Some (retry_until_ready call complaint results)
  <-> Exists (fun r => r <> 0) results.
Proof.
  pose proof (retry_until_ready_shape call complaint results) as H.
  destruct (retry_until_ready call complaint results) as [ev |].
  - split; [intros _ | eauto].
    destruct H as (failures & r & rest & -> & _ & Hr & _).
    apply Exists_app. right. by constructor.
  - split; [by intros [? ?] |].
    intros Hex. apply Exists_exists in Hex as (v & Hin & Hv).
    rewrite Forall_forall in H. by destruct (Hv (H v Hin)).
Qed.

(** X12.  When multitasking starts.  [main] gets as far as [tsw_on()] exactly
    when some read of the button register shows a button pressed, some
    call of [accelerometer_open_dev] returns non-zero and some call of
    [accelerometer_init] returns non-zero; no other answer of the
    environment (the versions, the canvas size) matters, and there is
    no timeout. *)
Theorem main_reaches_tsw_on_iff (env : main_env) :
  is_Some (main env)
  <-> Exists button_pressed (pio_reads env)
      /\ Exists (fun r => r <> 0) (open_results env)
      /\ Exists (fun r => r <> 0) (init_results env).
Proof.
  rewrite <- button_wait_is_Some.
  rewrite <- (retry_until_ready_is_Some AccelerometerOpenDev open_complaint).
  rewrite <- (retry_until_ready_is_Some AccelerometerInit init_complaint).
  unfold main.
  destruct (button_wait (pio_reads env)) as [[b polls] |];
    [| split; [by intros [? ?] | by intros ([? ?] & _)]].
  destruct (retry_until_ready AccelerometerOpenDev _ _) as [opening |];
    [| split; [by intros [? ?] | by intros (_ & [? ?] & _)]].
  destruct (retry_until_ready AccelerometerInit _ _) as [initialising |];
    [| split; [by intros [? ?] | by intros (_ & _ & [? ?])]].
  split; eauto.
Qed.

Lemma created_none (l : list main_event) :
  Forall (fun e => is_task_start e = false) l -> created l = [].
Proof.
  induction 1 as [| e l He _ IH]; [done |].
  destruct e; try discriminate; exact IH.
Qed.

Lemma created_app (l1 l2 : list main_event) :
  created (l1 ++ l2) = created l1 ++ created l2.
Proof. unfold created. apply omap_app. Qed.

Lemma created_task_creates (l : list task_create_call) :
  created (TaskCreate <$> l) = l.
Proof.
  induction l as [| c l IH]; [done |].
  change (created (TaskCreate <$> c :: l))
    with (c :: created (TaskCreate <$> l)).
  by rewrite IH.
Qed.

(** X13.  Nothing is scheduled before the bring-up is over.  Whenever [main]
    gets as far as [tsw_on()], its calls are: a start-up part that
    creates no task and does not start multitasking, and in which a
    button was seen pressed and [accelerometer_open_dev] returned
    non-zero; then the call of [accelerometer_init] that returned
    non-zero; the two axis lines; the five [task_create] calls in the
    order idle, timer, sampling, filter, plot; and [tsw_on()] as the
    last call. *)
Theorem main_starts_tasks_after_bring_up
    (env : main_env) (trace : list main_event) :
  main env = Some trace ->
  exists (startup : list main_event) (r : Z),
    trace = startup
              ++ [AccelerometerInit r;
                  MainCall (DrawHline 0 120
                              (int_add (CANVAS_WIDTH env) (-1)) Col_White);
                  DrawVline 160 0 (int_add (CANVAS_HEIGHT env) (-1))
                    Col_White]
              ++ (TaskCreate <$> main_task_creates)
              ++ [TswOn]
    /\ r <> 0
    /\ Forall (fun e => is_task_start e = false) startup
    /\ (exists v, button_pressed v /\ ReadButtons v ∈ startup)
    /\ (exists o, o <> 0 /\ AccelerometerOpenDev o ∈ startup)
    /\ created trace = main_task_creates
    /\ last trace = Some TswOn.
Proof.
  unfold main. intros Hmain.
  pose proof (button_wait_shape (pio_reads env)) as Hb.
  destruct (button_wait (pio_reads env)) as [[b polls] |]; [| done].
  destruct Hb as (idle & v & rest & _ & _ & Hv & _ & ->).
  pose proof (retry_until_ready_shape AccelerometerOpenDev
                open_complaint (open_results env)) as Ho.
  destruct (retry_until_ready AccelerometerOpenDev _ _) as [opening |];
    [| done].
  destruct Ho as (ofail & o & orest & _ & _ & Ho & ->).
  pose proof (retry_until_ready_shape AccelerometerInit
                init_complaint (init_results env)) as Hi.
  destruct (retry_until_ready AccelerometerInit _ _) as [initialising |];
    [| done].
  destruct Hi as (ifail & r & irest & _ & _ & Hr & ->).
  injection Hmain as <-.
  set (welcome := [ClearScreen Col_Black;
                   MainCall (TtyPrint 150 20 "Menyar Hees" Col_Magenta
                               Col_Black);
                   MainCall (TtyPrint 140 120 "press any button" Col_Red
                               Col_Black)]).
  set (kernel := [ClearScreen Col_Black; SierraInitiation;
                  PrintfInt ("Sierra HW version = %d" +:+ newline)
                    (HW_version env);
                  PrintfInt ("Sierra SW driver version = %d" +:+ newline)
                    (SW_driver_version env);
                  SetTimebase set_timebase_argument]).
  set (ocalls := flat_map (fun f => [AccelerometerOpenDev f;
                                     MainCall (Printf open_complaint)])
                   ofail).
  set (icalls := flat_map (fun f => [AccelerometerInit f;
                                     MainCall (Printf init_complaint)])
                   ifail).
  set (startup := welcome ++ (ReadButtons <$> (idle ++ [v])) ++ kernel
                     ++ (ocalls ++ [AccelerometerOpenDev o]) ++ icalls).
  set (finish := [AccelerometerInit r;
                  MainCall (DrawHline 0 120
                              (int_add (CANVAS_WIDTH env) (-1)) Col_White);
                  DrawVline 160 0 (int_add (CANVAS_HEIGHT env) (-1))
                    Col_White]).
  match goal with
  | |- exists _ _, ?t = _ /\ _ => set (trace := t)
  end.
  assert (Heq : trace = startup ++ finish
                          ++ (TaskCreate <$> main_task_creates) ++ [TswOn]).
  { subst trace startup finish. by rewrite <- !app_assoc. }
  clearbody trace. subst trace.
  exists startup, r.
  assert (Hstart : Forall (fun e => is_task_start e = false) startup).
  { subst startup. repeat apply Forall_app_2.
    - by repeat constructor.
    - apply Forall_fmap. by apply Forall_true.
    - by repeat constructor.
    - subst ocalls. induction ofail as [| f ofail IH]; [constructor |].
      simpl. by repeat constructor.
    - by repeat constructor.
    - subst icalls. induction ifail as [| f ifail IH]; [constructor |].
      simpl. by repeat constructor. }
  split; [reflexivity |].
  split; [exact Hr |]. split; [exact Hstart |].
  split.
  { exists v. split; [exact Hv |]. subst startup.
    apply elem_of_app. right. apply elem_of_app. left.
    apply list_elem_of_fmap. exists v. split; [done |].
    apply elem_of_app. right. apply list_elem_of_here. }
  split.
  { exists o. split; [exact Ho |]. subst startup.
    do 3 (apply elem_of_app; right). apply elem_of_app. left.
    apply elem_of_app. right. apply list_elem_of_here. }
  split.
  - rewrite !created_app, (created_none _ Hstart), created_task_creates.
    subst finish. reflexivity.
  - rewrite !app_assoc. apply last_snoc.
Qed.

Lemma main_starts_tasks_after_bring_up_witness :
  exists trace : list main_event,
    main main_example_env = Some trace
    /\ created trace = main_task_creates
    /\ last trace = Some TswOn.
Proof.
  eexists. split; [reflexivity |].
  destruct (main_starts_tasks_after_bring_up main_example_env _ eq_refl)
    as (startup & r & _ & _ & _ & _ & _ & Hcreated & Hlast).
  split; [exact Hcreated | exact Hlast].
Defined.

Lemma button_wait_stops_at_first_press_witness :
  button_wait [3; 7; 2; 3]
  = Some (2, [ReadButtons 3; ReadButtons 7; ReadButtons 2]).
Proof.
  apply (proj2 (button_wait_stops_at_first_press [3; 7; 2; 3] 2
                  [ReadButtons 3; ReadButtons 7; ReadButtons 2])).
  exists [3; 7], 2, [3].
  split; [reflexivity |].
  split; [apply (bool_decide_unpack _); vm_compute; exact I |].
  split; [apply (bool_decide_unpack _); vm_compute; exact I |].
  split; [reflexivity |]. split; [lia | reflexivity].
Defined.

Lemma retry_until_ready_stops_at_first_success_witness :
  retry_until_ready AccelerometerOpenDev open_complaint [0; 0; 1; 0]
  = Some [AccelerometerOpenDev 0; MainCall (Printf open_complaint);
          AccelerometerOpenDev 0; MainCall (Printf open_complaint);
          AccelerometerOpenDev 1].
Proof.
  apply (proj2 (retry_until_ready_stops_at_first_success
                  AccelerometerOpenDev open_complaint [0; 0; 1; 0] _)).
  exists 2%nat, 1, [0].
  split; [reflexivity |]. split; [lia | reflexivity].
Defined.

Lemma main_reaches_tsw_on_iff_witness : is_Some (main main_example_env).
Proof.
  apply (proj2 (main_reaches_tsw_on_iff main_example_env)).
  split; [| split]; apply (bool_decide_unpack _); vm_compute; exact I.
Defined.

(** * The tasks in a run of the system *)

Lemma period_events_idle (r : release) (w : world) :
  rel_task r = IDLE -> (period r w).2 = idle_code.loop_body.
Proof. intros E. unfold period. by rewrite E. Qed.

Lemma period_events_acc (r : release) (w : world) :
  rel_task r = TASK_ACC ->
  (period r w).2
  = (task_acc_code.loop_body (rel_deadline r) (rel_sensor r)).2.
Proof. intros E. unfold period. by rewrite E. Qed.

Lemma period_timer (r : release) (w : world) :
  rel_task r = TASK_TIMER ->
  timer_locals (period r w).1
  = (timer_task_code.loop_body (rel_deadline r) (timer_locals w)).1
  /\ (period r w).2
     = (timer_task_code.loop_body (rel_deadline r) (timer_locals w)).2.
Proof. intros E. unfold period. by rewrite E. Qed.

Lemma period_timer_other (r : release) (w : world) :
  rel_task r <> TASK_TIMER -> timer_locals (period r w).1 = timer_locals w.
Proof.
  intros E. unfold period. destruct (rel_task r); simpl; try done.
  by destruct (task_acc_filter_code.loop_body _ _ _).
Qed.

Lemma releases_of_cons (t : task_id) (q : release) (rest : list release) :
  releases_of t (q :: rest)
  = (if decide (rel_task q = t) then [q] else []) ++ releases_of t rest.
Proof.
  unfold releases_of. rewrite filter_cons.
  by destruct (decide (rel_task q = t)).
Qed.

Lemma run_events_stateless (t : task_id) (shown : release -> list event)
    (schedule : list release) (w : world) :
  (forall r w', rel_task r = t -> (period r w').2 = shown r) ->
  events_of t schedule (run_loop period schedule w).2
  = shown <$> releases_of t schedule.
Proof.
  intros Hshown. revert w.
  induction schedule as [| q rest IH]; intros w; [done |].
  rewrite run_loop_cons. cbv zeta. cbn [snd].
  rewrite events_of_cons, releases_of_cons, fmap_app, IH.
  destruct (decide (rel_task q = t)) as [E | E]; [| done].
  simpl. by rewrite (Hshown q w E).
Qed.

Lemma run_timer_projection (schedule : list release) (w : world) :
  let r := run_loop period schedule w in
  let f := run_loop timer_task_code.loop_body
             (rel_deadline <$> releases_of TASK_TIMER schedule)
             (timer_locals w) in
  timer_locals r.1 = f.1 /\ events_of TASK_TIMER schedule r.2 = f.2.
Proof.
  revert w. induction schedule as [| q rest IH]; intros w; [done |].
  cbv zeta. rewrite run_loop_cons. cbv zeta. cbn [fst snd].
  specialize (IH (period q w).1). cbv zeta in IH.
  rewrite events_of_cons, releases_of_cons, fmap_app.
  destruct (decide (rel_task q = TASK_TIMER)) as [E | E].
  - destruct (period_timer q w E) as [H1 H2].
    cbn [fmap list_fmap app]. rewrite run_loop_cons. cbv zeta. cbn [fst snd].
    rewrite <- H1, <- H2. destruct IH as [IH1 IH2].
    by rewrite IH1, IH2.
  - cbn [fmap list_fmap app]. rewrite <- (period_timer_other q w E).
    exact IH.
Qed.

Lemma run_plot_events (schedule : list release) (w : world) :
  events_of TASK_PLOT schedule (run_loop period schedule w).2
  = (run_loop (fun i => task_plot_code.loop_body i.1 i.2)
       (reader_inputs TASK_PLOT schedule (global_acc_data w))
       (plot_locals w)).2.
Proof.
  revert w. induction schedule as [| q rest IH]; intros w; [done |].
  rewrite run_loop_cons. cbv zeta. cbn [fst snd].
  rewrite events_of_cons, IH. simpl reader_inputs. rewrite <- period_cell.
  destruct (decide (rel_task q = TASK_PLOT)) as [E | E].
  - destruct (period_plot q w E) as [H1 H2].
    simpl app. rewrite run_loop_cons. cbv zeta. cbn [fst snd].
    by rewrite <- H1, <- H2.
  - simpl app. by rewrite (period_plot_other q w E).
Qed.

(** X14.  The tasks meet only in the shared cell.  In any run of the system,
    under any schedule, each task makes the calls, and ends with the
    local variables, that it would running alone: the timer on the wait
    results of its own releases; the filter and the plot on the wait
    results of their own releases, each paired with the content of the
    cell at that release; the sampling task on its own wait results and
    readings; the idle task printing its dot once per turn. *)
Theorem tasks_meet_only_in_the_cell
    (garbage : list position_t) (schedule : list release) :
  let result := run garbage schedule in
  let timer :=
    timer_run (rel_deadline <$> releases_of TASK_TIMER schedule) in
  let filter :=
    filter_run garbage
      (reader_inputs TASK_ACC_FILTER schedule zero_position) in
  let plot := plot_run (reader_inputs TASK_PLOT schedule zero_position) in
  (timer_locals result.1 = timer.1
   /\ events_of TASK_TIMER schedule result.2 = timer.2)
  /\ (filter_locals result.1 = filter.1
      /\ events_of TASK_ACC_FILTER schedule result.2 = filter.2)
  /\ (plot_locals result.1 = plot.1
      /\ events_of TASK_PLOT schedule result.2 = plot.2)
  /\ events_of TASK_ACC schedule result.2
     = (fun r => (task_acc_code.loop_body (rel_deadline r) (rel_sensor r)).2)
         <$> releases_of TASK_ACC schedule
  /\ events_of IDLE schedule result.2
     = (fun _ => idle_code.loop_body) <$> releases_of IDLE schedule.
Proof.
  cbv zeta. unfold run.
  split; [exact (run_timer_projection schedule (boot garbage)) |].
  split; [exact (run_filter_projection schedule (boot garbage)) |].
  split.
  { split.
    - exact (run_plot_projection schedule (boot garbage)).
    - exact (run_plot_events schedule (boot garbage)). }
  split.
  - apply run_events_stateless. intros r w' E. by apply period_events_acc.
  - apply run_events_stateless. intros r w' E. by apply period_events_idle.
Qed.

(** * The idle task's delay *)

Lemma count_up_reaches_bound (fuel : nat) (i bound : Z) :
  0 <= i <= bound -> bound <= INT_MAX ->
  (Z.to_nat (bound - i) < fuel)%nat ->
  count_up fuel i bound = Some bound.
Proof.
  revert i. induction fuel as [| fuel IH]; intros i Hi Hb Hf; [lia |].
  simpl. destruct (Z.ltb_spec i bound) as [Hlt | Hge].
  - rewrite int_add_exact
      by (unfold in_int, INT_MIN, INT_MAX in *; lia).
    apply IH; lia.
  - f_equal. lia.
Qed.

Lemma count_up_short_of_fuel (fuel : nat) (i bound : Z) :
  0 <= i -> bound <= INT_MAX ->
  (fuel <= Z.to_nat (bound - i))%nat ->
  count_up fuel i bound = None.
Proof.
  revert i. induction fuel as [| fuel IH]; intros i Hi Hb Hf; [done |].
  simpl. destruct (Z.ltb_spec i bound) as [Hlt | Hge]; [| lia].
  rewrite int_add_exact by (unfold in_int, INT_MIN, INT_MAX in *; lia).
  apply IH; lia.
Qed.

(** X15.  The idle task's delay loop ends, and it is a delay of exactly
    500000 increments: the loop condition is tested 500001 times, [i]
    never overflows, and [i] is 500000 when the loop is left.  With
    fewer tests the loop is still running. *)
Theorem idle_delay_takes_500000_increments (fuel : nat) :
  idle_delay fuel
  = if decide (500000 < Z.of_nat fuel) then Some 500000 else None.
Proof.
  unfold idle_delay. case_decide as Hf.
  - apply count_up_reaches_bound; unfold INT_MAX; lia.
  - apply count_up_short_of_fuel; unfold INT_MAX; lia.
Qed.

(** ** C9 *)

(** What a trace of [main] holds besides the polls, the accelerometer
    attempts and the calls shared with the tasks: for a selection [f]
    that takes none of those, the selected calls of the trace are those
    of the fixed part of [main]. *)
Lemma main_trace_omap {A : Type} (f : main_event -> option A)
    (env : main_env) (trace : list main_event) :
  main env = Some trace ->
  (forall v, f (ReadButtons v) = None) ->
  (forall r, f (AccelerometerOpenDev r) = None) ->
  (forall r, f (AccelerometerInit r) = None) ->
  (forall e, f (MainCall e) = None) ->
  omap f trace
  = omap f ([ClearScreen Col_Black]
              ++ [ClearScreen Col_Black; SierraInitiation;
                  PrintfInt ("Sierra HW version = %d" +:+ newline)
                    (HW_version env);
                  PrintfInt ("Sierra SW driver version = %d" +:+ newline)
                    (SW_driver_version env);
                  SetTimebase set_timebase_argument]
              ++ [DrawVline 160 0 (int_add (CANVAS_HEIGHT env) (-1))
                    Col_White]
              ++ (TaskCreate <$> main_task_creates) ++ [TswOn]).
Proof.
  unfold main. intros Hmain Hb Ho Hi Hc.
  pose proof (button_wait_shape (pio_reads env)) as Sb.
  destruct (button_wait (pio_reads env)) as [[b polls] |]; [| done].
  destruct Sb as (idle & v & rest & _ & _ & _ & _ & ->).
  pose proof (retry_until_ready_shape AccelerometerOpenDev open_complaint
                (open_results env)) as So.
  destruct (retry_until_ready AccelerometerOpenDev _ _) as [opening |];
    [| done].
  destruct So as (ofail & o & orest & _ & _ & _ & ->).
  pose proof (retry_until_ready_shape AccelerometerInit init_complaint
                (init_results env)) as Si.
  destruct (retry_until_ready AccelerometerInit _ _) as [initialising |];
    [| done].
  destruct Si as (ifail & r & irest & _ & _ & _ & ->).
  apply (inj Some) in Hmain. subst trace.
  assert (Hpolls : forall l, omap f (ReadButtons <$> l) = []).
  { induction l as [| u l IH]; [done |]. simpl. by rewrite Hb. }
  assert (Hretry : forall (call : Z -> main_event) text l,
            (forall u, f (call u) = None) ->
            omap f (flat_map (fun u => [call u; MainCall (Printf text)]) l)
            = []).
  { intros call text l Hcall. induction l as [| u l IH]; [done |].
    simpl. by rewrite Hcall, Hc. }
  assert (Hwelcome :
            omap f [ClearScreen Col_Black;
                    MainCall (TtyPrint 150 20 "Menyar Hees" Col_Magenta
                                Col_Black);
                    MainCall (TtyPrint 140 120 "press any button" Col_Red
                                Col_Black)]
            = omap f [ClearScreen Col_Black]).
  { simpl. by rewrite !Hc. }
  assert (Haxes :
            omap f [MainCall (DrawHline 0 120
                                (int_add (CANVAS_WIDTH env) (-1)) Col_White);
                    DrawVline 160 0 (int_add (CANVAS_HEIGHT env) (-1))
                      Col_White]
            = omap f [DrawVline 160 0 (int_add (CANVAS_HEIGHT env) (-1))
                        Col_White]).
  { simpl. by rewrite Hc. }
  assert (Hopen : omap f [AccelerometerOpenDev o] = []).
  { simpl. by rewrite Ho. }
  assert (Hinit : omap f [AccelerometerInit r] = []).
  { simpl. by rewrite Hi. }
  rewrite !omap_app, Hpolls, !Hretry, Hwelcome, Haxes, Hopen, Hinit by done.
  reflexivity.
Qed.

(** C9.  Whenever the environment lets [main] finish its bring-up (a
    button is seen pressed, the accelerometer opens and initialises),
    [main] gets as far as [tsw_on()] and on the way calls
    [set_timebase] once, with 1000, and [task_create] five times, for
    the idle, timer, sampling, filter and plotting tasks in that order.
    Each of the four periodic tasks is created with priority argument 1
    and configures a period of 50 ticks with [init_period_time(50)];
    with a kernel whose tick for the time base 1000 is 20 ms, as the
    comments of main.c have it, that is 1000 ms.  The idle task
    configures no period and is created with priority argument 0, a
    lower priority than that of every periodic task. *)
Theorem C9_periods_and_priorities (env : main_env) (tick_ms : Z -> Z) :
  Exists button_pressed (pio_reads env) ->
  Exists (fun r => r <> 0) (open_results env) ->
  Exists (fun r => r <> 0) (init_results env) ->
  tick_ms 1000 = 20 ->
  exists trace : list main_event,
    main env = Some trace
    /\ timebases trace = [1000]
    /\ tc_id <$> created trace
       = [IDLE; TASK_TIMER; TASK_ACC; TASK_ACC_FILTER; TASK_PLOT]
    /\ Forall (fun t =>
                 priority_in trace t = Some 1
                 /\ exists ticks timebase,
                      configured_period t = Some ticks
                      /\ ticks = 50
                      /\ timebases trace = [timebase]
                      /\ ticks * tick_ms timebase = 1000)
              periodic_tasks
    /\ configured_period IDLE = None
    /\ priority_in trace IDLE = Some 0
    /\ Forall (fun t => exists lo hi,
                 priority_in trace IDLE = Some lo
                 /\ priority_in trace t = Some hi
                 /\ lower_priority lo hi)
              periodic_tasks.
Proof.
  intros Hb Ho Hi Htick.
  assert (Hsome : is_Some (main env)).
  { unfold main.
    apply button_wait_is_Some in Hb as [[b polls] ->].
    apply (retry_until_ready_is_Some AccelerometerOpenDev open_complaint)
      in Ho as [opening ->].
    apply (retry_until_ready_is_Some AccelerometerInit init_complaint)
      in Hi as [initialising ->].
    eauto. }
  destruct Hsome as [trace Hmain]. exists trace.
  assert (Htb : timebases trace = [1000]).
  { unfold timebases. by rewrite (main_trace_omap _ env trace Hmain). }
  assert (Hcr : created trace = main_task_creates).
  { unfold created. by rewrite (main_trace_omap _ env trace Hmain). }
  unfold priority_in. rewrite Hcr, Htb.
  split; [exact Hmain |]. split; [reflexivity |]. split; [reflexivity |].
  split.
  { repeat constructor; exists 50, 1000; rewrite Htick;
      repeat split; reflexivity. }
  split; [reflexivity |]. split; [reflexivity |].
  repeat constructor; exists 0, 1; unfold lower_priority;
    repeat split; lia.
Qed.

Lemma C9_periods_and_priorities_witness :
  exists trace : list main_event,
    main main_example_env = Some trace
    /\ timebases trace = [1000]
    /\ tc_id <$> created trace
       = [IDLE; TASK_TIMER; TASK_ACC; TASK_ACC_FILTER; TASK_PLOT].
Proof.
  destruct (C9_periods_and_priorities main_example_env
              (fun timebase => timebase / 50)
              ltac:(apply (bool_decide_unpack _); vm_compute; exact I)
              ltac:(apply (bool_decide_unpack _); vm_compute; exact I)
              ltac:(apply (bool_decide_unpack _); vm_compute; exact I)
              eq_refl)
    as (trace & Hmain & Htb & Hids & _).
  exists trace. split; [exact Hmain |]. split; [exact Htb | exact Hids].
Defined.
